(** * IntelliVulnScan: scan orchestration and vulnerability prioritisation

    A shallow embedding of the scan lifecycle ([app/services/scan_service.py],
    [app/api/endpoints/scans.py], [app/tasks/scan_tasks.py]) and of the
    per-model prioritisation code ([app/services/ml_service.py]), together
    with the properties the specification states about them.

    Conventions of the embedding:
    - Python values that travel through [Dict[str, Any]] are [pyval];
      a Python [dict] keyed by strings is a [gmap string pyval];
    - a Python [float] is the rational number it stands for ([Q]) and
      arithmetic on floats is exact: the rounding of IEEE doubles, NaN and
      the infinities are not modelled, and the statements about numeric
      code rest on comparisons and on the order of values only;
    - strings are byte strings; where the code lower-cases text that a
      scanner or a stored record supplies, [str.lower] is the lower-casing
      of ASCII letters, and where it lower-cases the text of a request it
      is a parameter of the definition;
    - a database table with an integer primary key is a [gmap Z row], the
      key being the row's [id]; the vulnerability table, which the code only
      appends to and filters, is a list in insertion order;
    - [datetime.now()] is the argument [now] of the operation; commits and
      refreshes of the session succeed;
    - code that can raise returns [result]; [try ... except Exception] is
      [try_except]. *)

From Stdlib Require Import ZArith QArith Qabs Qminmax Lqa String Ascii List.
From stdpp Require Import base option gmap strings list fin_maps pretty.

#[local] Set Warnings "-register-all".
#[local] Open Scope string_scope.

(** ** Python values, exceptions and the built-ins the code uses *)

Module Py.

Inductive pyval :=
| PNone
| PBool (b : bool)
| PInt (n : Z)
| PFloat (x : Q)
| PStr (s : string)
| PList (l : list pyval)
| PDict (d : gmap string pyval).

(** The subclasses of [Exception] the modelled code can meet, each with
    the text [str(e)] yields.  [CalledProcessError] carries the captured
    standard error: the adapters handle it in a clause of its own. *)
Inductive exn :=
| CalledProcessError (stderr : string)
| AttributeError (msg : string)
| TypeError (msg : string)
| ValueError (msg : string)
| OSError (msg : string)
| JSONDecodeError (msg : string)
| IndexError (msg : string)
| OverflowError (msg : string)
| RuntimeError (msg : string).

Definition str_of_exn (e : exn) : string :=
  match e with
  | CalledProcessError s => "Command returned non-zero exit status: " +:+ s
  | AttributeError m | TypeError m | ValueError m
  | OSError m | JSONDecodeError m | IndexError m | OverflowError m
  | RuntimeError m => m
  end.

Inductive result (A : Type) :=
| Ok (a : A)
| Raise (e : exn).
Arguments Ok {A} a.
Arguments Raise {A} e.

Definition bind {A B} (r : result A) (k : A → result B) : result B :=
  match r with
  | Ok a => k a
  | Raise e => Raise e
  end.

Definition try_except {A} (body : result A) (handler : exn → A) : A :=
  match body with
  | Ok a => a
  | Raise e => handler e
  end.

Fixpoint for_each {A B} (f : A → result B) (l : list A) : result (list B) :=
  match l with
  | [] => Ok []
  | a :: l' =>
      match f a with
      | Ok b =>
          match for_each f l' with
          | Ok bs => Ok (b :: bs)
          | Raise e => Raise e
          end
      | Raise e => Raise e
      end
  end.

(** [v == s] for a string literal [s]. *)
Definition eq_str (v : pyval) (s : string) : bool :=
  match v with
  | PStr t => String.eqb t s
  | _ => false
  end.

(** [d.get(k, dflt)] on a dictionary. *)
Definition dict_get (d : gmap string pyval) (k : string) (dflt : pyval) : pyval :=
  default dflt (d !! k).

(** [v.get(k, dflt)] on an arbitrary value: only dictionaries have [get]. *)
Definition get (v : pyval) (k : string) (dflt : pyval) : result pyval :=
  match v with
  | PDict d => Ok (dict_get d k dflt)
  | _ => Raise (AttributeError "object has no attribute 'get'")
  end.

(** [str.lower] on ASCII text: the letters A to Z become a to z and every
    other byte stays as it is.  (On text outside ASCII Python also
    lower-cases the letters of other scripts.) *)
Definition ascii_lower (c : ascii) : ascii :=
  let n := nat_of_ascii c in
  if Nat.leb 65 n && Nat.leb n 90 then ascii_of_nat (n + 32) else c.

Fixpoint str_lower (s : string) : string :=
  match s with
  | EmptyString => EmptyString
  | String c s' => String (ascii_lower c) (str_lower s')
  end.

(** [v.lower()]: only strings have [lower]. *)
Definition lower (v : pyval) : result string :=
  match v with
  | PStr s => Ok (str_lower s)
  | _ => Raise (AttributeError "object has no attribute 'lower'")
  end.

Fixpoint chars (s : string) : list pyval :=
  match s with
  | EmptyString => []
  | String c s' => PStr (String c EmptyString) :: chars s'
  end.

(** [for x in v]: lists yield their elements, dictionaries their keys,
    strings their characters; other values are not iterable.  (The keys of
    a dictionary come in the order of [map_to_list], not in the order of
    insertion.) *)
Definition iter (v : pyval) : result (list pyval) :=
  match v with
  | PList l => Ok l
  | PDict d => Ok ((λ kv, PStr kv.1) <$> map_to_list d)
  | PStr s => Ok (chars s)
  | _ => Raise (TypeError "object is not iterable")
  end.

(** The text-to-number conversions of [int(str)] and [float(str)] belong to
    the interpreter; they are taken as given. *)
Record runtime := {
  parse_int : string → option Z;
  parse_float : string → option Q;
}.

Definition Qtrunc (x : Q) : Z := Z.quot (Qnum x) (Z.pos (Qden x)).

Definition int (rt : runtime) (v : pyval) : result Z :=
  match v with
  | PBool b => Ok (if b then 1 else 0)%Z
  | PInt n => Ok n
  | PFloat x => Ok (Qtrunc x)
  | PStr s =>
      match parse_int rt s with
      | Some n => Ok n
      | None => Raise (ValueError "invalid literal for int()")
      end
  | _ => Raise (TypeError "int() argument must be a string or a number")
  end.

(** The double nearest to an integer, ties to even, as [float(int)]
    computes it: integers of up to 53 bits are doubles; a longer one keeps
    its 53 leading bits, rounded on the bits that are dropped; there is no
    double from 2^1024 onwards. *)
Definition double_of_Z (n : Z) : option Z :=
  let a := Z.abs n in
  let bits := (if a =? 0 then 0 else Z.log2 a + 1)%Z in
  if (bits <=? 53)%Z then Some n
  else
    let shift := (bits - 53)%Z in
    let q := Z.shiftr a shift in
    let r := Z.land a (Z.ones shift) in
    let half := Z.shiftl 1 (shift - 1) in
    let q' := (if (half <? r) || ((r =? half) && Z.odd q) then q + 1 else q)%Z in
    let m := Z.shiftl q' shift in
    if (2 ^ 1024 <=? m)%Z then None else Some (Z.sgn n * m)%Z.

(** [float(v)].  The strings Python reads as NaN or an infinity have no
    value in [Q]; [parse_float] is taken to refuse them. *)
Definition float (rt : runtime) (v : pyval) : result Q :=
  match v with
  | PBool b => Ok (if b then 1 else 0)%Q
  | PInt n =>
      match double_of_Z n with
      | Some m => Ok (inject_Z m)
      | None => Raise (OverflowError "int too large to convert to float")
      end
  | PFloat x => Ok x
  | PStr s =>
      match parse_float rt s with
      | Some x => Ok x
      | None => Raise (ValueError "could not convert string to float")
      end
  | _ => Raise (TypeError "float() argument must be a string or a number")
  end.

End Py.

Export Py.

#[export] Instance result_ret : MRet Py.result := @Py.Ok.
#[export] Instance result_bind : MBind Py.result := λ A B k r, Py.bind r k.
#[export] Instance result_fmap : FMap Py.result :=
  λ A B f r, match r with Py.Ok a => Py.Ok (f a) | Py.Raise e => Py.Raise e end.

(** Case analysis along a chain of binds: in the goal, and in a hypothesis
    that says the chain returned. *)
Ltac bind_cases :=
  repeat match goal with
         | |- context [Py.bind ?r _] =>
             let E := fresh "E" in destruct r eqn:E; cbn [Py.bind]
         end.

Ltac bind_cases_in H :=
  repeat match type of H with
         | Py.bind ?r _ = _ =>
             let E := fresh "E" in
             destruct r eqn:E; cbn [Py.bind] in H; [|discriminate H]
         end.

(** Membership in a list that is written out. *)
Ltac pick_member :=
  repeat first [apply list_elem_of_here | apply list_elem_of_further].

(** ** app/models *)

Module scan.

(** [app/models/scan.py], the columns the modelled functions read or
    write; the primary key [id] is the key of the table. *)
Record Scan := mkScan {
  name : string;
  scanner_type : string;
  asset_id : option Z;
  target_type : string;
  target_identifier : string;
  scan_depth : string;
  status : string;
  updated_at : Z;
  started_at : option Z;
  completed_at : option Z;
  vulnerabilities_count : nat;
  critical_count : nat;
  high_count : nat;
  medium_count : nat;
  low_count : nat;
}.

Definition set_status (v : string) (s : Scan) : Scan :=
  mkScan (name s) (scanner_type s) (asset_id s) (target_type s)
    (target_identifier s) (scan_depth s) v (updated_at s) (started_at s)
    (completed_at s) (vulnerabilities_count s) (critical_count s)
    (high_count s) (medium_count s) (low_count s).

Definition set_updated_at (v : Z) (s : Scan) : Scan :=
  mkScan (name s) (scanner_type s) (asset_id s) (target_type s)
    (target_identifier s) (scan_depth s) (status s) v (started_at s)
    (completed_at s) (vulnerabilities_count s) (critical_count s)
    (high_count s) (medium_count s) (low_count s).

Definition set_started_at (v : option Z) (s : Scan) : Scan :=
  mkScan (name s) (scanner_type s) (asset_id s) (target_type s)
    (target_identifier s) (scan_depth s) (status s) (updated_at s) v
    (completed_at s) (vulnerabilities_count s) (critical_count s)
    (high_count s) (medium_count s) (low_count s).

Definition set_completed_at (v : option Z) (s : Scan) : Scan :=
  mkScan (name s) (scanner_type s) (asset_id s) (target_type s)
    (target_identifier s) (scan_depth s) (status s) (updated_at s)
    (started_at s) v (vulnerabilities_count s) (critical_count s)
    (high_count s) (medium_count s) (low_count s).

Definition set_vulnerabilities_count (v : nat) (s : Scan) : Scan :=
  mkScan (name s) (scanner_type s) (asset_id s) (target_type s)
    (target_identifier s) (scan_depth s) (status s) (updated_at s)
    (started_at s) (completed_at s) v (critical_count s)
    (high_count s) (medium_count s) (low_count s).

Definition set_critical_count (v : nat) (s : Scan) : Scan :=
  mkScan (name s) (scanner_type s) (asset_id s) (target_type s)
    (target_identifier s) (scan_depth s) (status s) (updated_at s)
    (started_at s) (completed_at s) (vulnerabilities_count s) v
    (high_count s) (medium_count s) (low_count s).

Definition set_high_count (v : nat) (s : Scan) : Scan :=
  mkScan (name s) (scanner_type s) (asset_id s) (target_type s)
    (target_identifier s) (scan_depth s) (status s) (updated_at s)
    (started_at s) (completed_at s) (vulnerabilities_count s)
    (critical_count s) v (medium_count s) (low_count s).

Definition set_medium_count (v : nat) (s : Scan) : Scan :=
  mkScan (name s) (scanner_type s) (asset_id s) (target_type s)
    (target_identifier s) (scan_depth s) (status s) (updated_at s)
    (started_at s) (completed_at s) (vulnerabilities_count s)
    (critical_count s) (high_count s) v (low_count s).

Definition set_low_count (v : nat) (s : Scan) : Scan :=
  mkScan (name s) (scanner_type s) (asset_id s) (target_type s)
    (target_identifier s) (scan_depth s) (status s) (updated_at s)
    (started_at s) (completed_at s) (vulnerabilities_count s)
    (critical_count s) (high_count s) (medium_count s) v.

End scan.

Module vulnerability.

(** Modelled from the spec: the model class of [app/models/vulnerability.py]
    is not among the sources.  Its columns are the attributes of a
    Finding / Vulnerability in the data model, under the names the
    constructor call in [create_vulnerability_from_finding] gives them.
    The values taken from a finding are whatever the finding holds. *)
Record Vulnerability := mkVulnerability {
  title : pyval;
  description : pyval;
  cve_id : pyval;
  severity : pyval;
  cvss_score : pyval;
  cvss_vector : pyval;
  asset_id : option Z;
  scan_id : Z;
  status : string;
  exploit_available : pyval;
  exploit_maturity : pyval;
  patch_available : pyval;
  affected_component : pyval;
  affected_version : pyval;
  business_impact : pyval;
  data_classification : pyval;
  system_exposure : pyval;
  metadata : pyval;
  created_at : Z;
  updated_at : Z;
}.

End vulnerability.

Module ml_model.

(** [app/models/ml_model.py].  [model_data] is a nullable [LargeBinary];
    [updated_at] is written by every function that creates or changes a
    row. *)
Record MLModel := mkMLModel {
  name : string;
  version : option string;
  hyperparameters : gmap string pyval;
  metrics : gmap string pyval;
  feature_importance : list (string * Q);
  model_data : option (list Byte.byte);
  status : string;
  updated_at : Z;
}.

(** [m.status = v; m.updated_at = datetime.now()] *)
Definition set_status (v : string) (now : Z) (m : MLModel) : MLModel :=
  mkMLModel (name m) (version m) (hyperparameters m) (metrics m)
    (feature_importance m) (model_data m) v now.

End ml_model.

(** The persistent state behind a [Session]. *)
Record Session := mkSession {
  scans : gmap Z scan.Scan;
  vulnerabilities : list vulnerability.Vulnerability;
  ml_models : gmap Z ml_model.MLModel;
}.

Definition with_scans (f : gmap Z scan.Scan → gmap Z scan.Scan) (db : Session) : Session :=
  mkSession (f (scans db)) (vulnerabilities db) (ml_models db).

Definition with_vulnerabilities
    (f : list vulnerability.Vulnerability → list vulnerability.Vulnerability)
    (db : Session) : Session :=
  mkSession (scans db) (f (vulnerabilities db)) (ml_models db).

Definition with_ml_models
    (f : gmap Z ml_model.MLModel → gmap Z ml_model.MLModel) (db : Session) : Session :=
  mkSession (scans db) (vulnerabilities db) (f (ml_models db)).

(** ** app/services/scan_service.py *)

Module scan_service.

Definition get_scan (db : Session) (scan_id : Z) : option scan.Scan :=
  scans db !! scan_id.

Definition start_scan (now : Z) (db : Session) (scan_id : Z)
    : Session * option scan.Scan :=
  match get_scan db scan_id with
  | None => (db, None)
  | Some db_scan =>
      let db_scan := scan.set_status "running" db_scan in
      let db_scan := scan.set_started_at (Some now) db_scan in
      let db_scan := scan.set_updated_at now db_scan in
      (with_scans <[scan_id := db_scan]> db, Some db_scan)
  end.

Definition stop_scan (now : Z) (db : Session) (scan_id : Z)
    : Session * option scan.Scan :=
  match get_scan db scan_id with
  | None => (db, None)
  | Some db_scan =>
      let db_scan := scan.set_status "stopped" db_scan in
      let db_scan := scan.set_updated_at now db_scan in
      (with_scans <[scan_id := db_scan]> db, Some db_scan)
  end.

(** [if x is not None: setter(x)] *)
Definition set_if_given {A} (setter : A → scan.Scan → scan.Scan)
    (x : option A) (s : scan.Scan) : scan.Scan :=
  match x with
  | Some v => setter v s
  | None => s
  end.

(** The [message] argument is accepted and not stored: [Scan] has no
    column for it. *)
Definition update_scan_status (now : Z) (db : Session) (scan_id : Z)
    (status : string) (message : option string)
    (vulnerabilities_count critical_count high_count medium_count
       low_count : option nat)
    : Session * option scan.Scan :=
  match get_scan db scan_id with
  | None => (db, None)
  | Some db_scan =>
      let db_scan := scan.set_status status db_scan in
      let db_scan := scan.set_updated_at now db_scan in
      let db_scan :=
        if String.eqb status "completed"
        then scan.set_completed_at (Some now) db_scan else db_scan in
      let db_scan := set_if_given scan.set_vulnerabilities_count vulnerabilities_count db_scan in
      let db_scan := set_if_given scan.set_critical_count critical_count db_scan in
      let db_scan := set_if_given scan.set_high_count high_count db_scan in
      let db_scan := set_if_given scan.set_medium_count medium_count db_scan in
      let db_scan := set_if_given scan.set_low_count low_count db_scan in
      (with_scans <[scan_id := db_scan]> db, Some db_scan)
  end.

Definition create_vulnerability_from_finding (now : Z) (db : Session)
    (scan_id : Z) (asset_id : option Z) (finding : gmap string pyval)
    : Session * vulnerability.Vulnerability :=
  let vulnerability := {|
    vulnerability.title := dict_get finding "title" (PStr "Unknown");
    vulnerability.description := dict_get finding "description" (PStr "");
    vulnerability.cve_id := dict_get finding "cve_id" (PStr "");
    vulnerability.severity := dict_get finding "severity" (PStr "low");
    vulnerability.cvss_score := dict_get finding "cvss_score" (PFloat 0.0);
    vulnerability.cvss_vector := dict_get finding "cvss_vector" (PStr "");
    vulnerability.asset_id := asset_id;
    vulnerability.scan_id := scan_id;
    vulnerability.status := "open";
    vulnerability.exploit_available := dict_get finding "exploit_available" (PBool false);
    vulnerability.exploit_maturity := dict_get finding "exploit_maturity" (PStr "");
    vulnerability.patch_available := dict_get finding "patch_available" (PBool false);
    vulnerability.affected_component := dict_get finding "affected_component" (PStr "");
    vulnerability.affected_version := dict_get finding "affected_version" (PStr "");
    vulnerability.business_impact := dict_get finding "business_impact" (PStr "");
    vulnerability.data_classification := dict_get finding "data_classification" (PStr "");
    vulnerability.system_exposure := dict_get finding "system_exposure" (PStr "");
    vulnerability.metadata := dict_get finding "metadata" (PDict ∅);
    vulnerability.created_at := now;
    vulnerability.updated_at := now;
  |} in
  (with_vulnerabilities (λ t, (t ++ [vulnerability])%list) db, vulnerability).


End scan_service.

(** ** app/api/endpoints/scans.py *)

Module scans.

Import scan_service.

(** What an endpoint hands back: the response model, or the
    [HTTPException] it raised. *)
Inductive response (A : Type) :=
| Respond (a : A)
| HTTPException (status_code : nat) (detail : string).
Arguments Respond {A} a.
Arguments HTTPException {A} status_code detail.

Definition HTTP_404_NOT_FOUND : nat := 404.
Definition HTTP_400_BAD_REQUEST : nat := 400.

(** The state an endpoint works on: the database and the background
    tasks queued so far ([run_scan_task] with its [scan_id]). *)
Record app := mkApp {
  db : Session;
  background_tasks : list Z;
}.

Definition start_scan_endpoint (now : Z) (st : app) (scan_id : Z)
    : app * response (option scan.Scan) :=
  match get_scan (db st) scan_id with
  | None => (st, HTTPException HTTP_404_NOT_FOUND "Scan not found")
  | Some _ =>
      let '(db', updated_scan) := start_scan now (db st) scan_id in
      (mkApp db' (background_tasks st ++ [scan_id])%list, Respond updated_scan)
  end.

Definition stop_scan_endpoint (now : Z) (st : app) (scan_id : Z)
    : app * response (option scan.Scan) :=
  match get_scan (db st) scan_id with
  | None => (st, HTTPException HTTP_404_NOT_FOUND "Scan not found")
  | Some scan =>
      if negb (String.eqb (scan.status scan) "running")
      then (st, HTTPException HTTP_400_BAD_REQUEST "Scan is not running")
      else
        let '(db', stopped) := stop_scan now (db st) scan_id in
        (mkApp db' (background_tasks st), Respond stopped)
  end.

End scans.

(** ** app/schemas/scan.py *)

Module schemas.

(** The body shared by the validators of [ScanBase]: lower-case the value
    and accept it when it is one of the allowed ones.  The text of a
    request is arbitrary Unicode and [v.lower()] follows the tables of the
    interpreter, so [str.lower] is the parameter [lower] of the validators;
    on ASCII text it is [str_lower].  [what] is the name the error message
    starts with, [shown] the list as the message prints it. *)
Definition validate_choice (lower : string → string) (what : string)
    (allowed_values : list string) (shown : string) (v : string) : result string :=
  if bool_decide (lower v ∈ allowed_values) then Ok (lower v)
  else Raise (ValueError (what +:+ " must be one of " +:+ shown)).

Definition validate_scanner_type (lower : string → string) (v : string)
    : result string :=
  validate_choice lower "Scanner type"
    ["trivy"; "openvas"; "dependency-check"; "custom"]
    "['trivy', 'openvas', 'dependency-check', 'custom']" v.

Definition validate_target_type (lower : string → string) (v : string)
    : result string :=
  validate_choice lower "Target type"
    ["container"; "host"; "application"; "repository"]
    "['container', 'host', 'application', 'repository']" v.

Definition validate_scan_frequency (lower : string → string) (v : option string)
    : result (option string) :=
  match v with
  | None => Ok None
  | Some v =>
      Some <$> validate_choice lower "Scan frequency"
                 ["once"; "daily"; "weekly"; "monthly"]
                 "['once', 'daily', 'weekly', 'monthly']" v
  end.

(** [ScanBase.validate_scan_depth]: a missing depth becomes "normal". *)
Definition validate_scan_depth (lower : string → string) (v : option string)
    : result string :=
  match v with
  | None => Ok "normal"
  | Some v =>
      validate_choice lower "Scan depth" ["quick"; "normal"; "deep"]
        "['quick', 'normal', 'deep']" v
  end.

End schemas.

(** ** app/tasks/scan_tasks.py *)

Module scan_tasks.

Import scan_service.

(** What lies outside the process: the settings, the external scanners,
    the JSON parser, the file system and the notification service
    ([app/services/notification_service.py]).  Each may raise. *)
Record environment := {
  rt : runtime;
  TRIVY_PATH : string;
  DEPENDENCY_CHECK_PATH : string;
  (** [subprocess.run(cmd, capture_output=True, text=True, check=True)]:
      the captured standard output; [CalledProcessError] on a non-zero
      exit, [OSError] when the program cannot be run. *)
  subprocess_run : list string → result string;
  (** [json.loads] and [json.load] *)
  json_loads : string → result pyval;
  (** [open(path, "r")] followed by reading the file *)
  open_read : string → result string;
  os_remove : string → result ();
  send_notification : string → string → string → result ();
}.

(** The dictionary an adapter returns; [raw_output] is present on success. *)
Record AdapterResult := mkAdapterResult {
  status : string;
  message : string;
  findings : list (gmap string pyval);
  raw_output : option pyval;
}.

(** [v != ""] *)
Definition ne_empty (v : pyval) : pyval := PBool (negb (eq_str v "")).

(** The finding built from one Trivy vulnerability [vuln] of [result]. *)
Definition trivy_finding (env : environment) (result vuln : pyval)
    : Py.result (gmap string pyval) :=
  vulnerability_id ← get vuln "VulnerabilityID" (PStr "Unknown");
  title ← get vuln "Title" vulnerability_id;
  description ← get vuln "Description" (PStr "");
  cve_id ← get vuln "VulnerabilityID" (PStr "");
  severity ← get vuln "Severity" (PStr "") ≫= lower;
  cvss ← get vuln "CVSS" (PDict ∅);
  nvd ← get cvss "nvd" (PDict ∅);
  cvss_score ← get nvd "V3Score" (PFloat 0.0) ≫= float (rt env);
  cvss' ← get vuln "CVSS" (PDict ∅);
  nvd' ← get cvss' "nvd" (PDict ∅);
  cvss_vector ← get nvd' "V3Vector" (PStr "");
  affected_component ← get result "Target" (PStr "");
  affected_version ← get vuln "InstalledVersion" (PStr "");
  exploit_available ← get vuln "ExploitAvailable" (PBool false);
  fixed ← get vuln "FixedVersion" (PStr "");
  package_name ← get vuln "PkgName" (PStr "");
  fixed_version ← get vuln "FixedVersion" (PStr "");
  references ← get vuln "References" (PList []);
  mret (<["title" := title]> (
        <["description" := description]> (
        <["cve_id" := cve_id]> (
        <["severity" := PStr severity]> (
        <["cvss_score" := PFloat cvss_score]> (
        <["cvss_vector" := cvss_vector]> (
        <["affected_component" := affected_component]> (
        <["affected_version" := affected_version]> (
        <["exploit_available" := exploit_available]> (
        <["patch_available" := ne_empty fixed]> (
        <["metadata" := PDict (
            <["package_name" := package_name]> (
            <["fixed_version" := fixed_version]> (
            <["references" := references]> ∅)))]> ∅))))))))))).

Definition trivy_cmd (env : environment) (scan : scan.Scan) : list string :=
  let cmd := [TRIVY_PATH env; "--format"; "json";
              "--severity"; "CRITICAL,HIGH,MEDIUM,LOW"] in
  let cmd :=
    if String.eqb (scan.scan_depth scan) "quick" then (cmd ++ ["--light"])%list
    else if String.eqb (scan.scan_depth scan) "deep"
         then (cmd ++ ["--list-all-pkgs"])%list
    else cmd in
  let cmd :=
    if String.eqb (scan.target_type scan) "container" then (cmd ++ ["image"])%list
    else if String.eqb (scan.target_type scan) "repository" then (cmd ++ ["fs"])%list
    else cmd in
  (cmd ++ [scan.target_identifier scan])%list.

(** The [try] block of [run_trivy_scan]. *)
Definition run_trivy_scan_body (env : environment) (scan : scan.Scan)
    : Py.result AdapterResult :=
  stdout ← subprocess_run env (trivy_cmd env scan);
  output ← json_loads env stdout;
  results ← get output "Results" (PList []) ≫= iter;
  findings ← for_each (λ result,
      vulns ← get result "Vulnerabilities" (PList []) ≫= iter;
      for_each (trivy_finding env result) vulns) results;
  mret {| status := "success";
          message := "Scan completed successfully";
          findings := concat findings;
          raw_output := Some output |}.

Definition run_trivy_scan (env : environment) (scan : scan.Scan) : AdapterResult :=
  try_except (run_trivy_scan_body env scan) (λ e,
    match e with
    | CalledProcessError stderr =>
        {| status := "failed";
           message := "Trivy scan failed: " +:+ stderr;
           findings := [];
           raw_output := None |}
    | _ =>
        {| status := "failed";
           message := "Error running Trivy scan: " +:+ str_of_exn e;
           findings := [];
           raw_output := None |}
    end).

(** The OpenVAS adapter is a placeholder that reports two fixed findings. *)
Definition openvas_findings : list (gmap string pyval) :=
  [ <["title" := PStr "SSH Weak Encryption Algorithms Supported"]> (
    <["description" := PStr "The SSH server is configured to support weak encryption algorithms."]> (
    <["cve_id" := PStr "CVE-2020-14145"]> (
    <["severity" := PStr "medium"]> (
    <["cvss_score" := PFloat 5.3]> (
    <["cvss_vector" := PStr "CVSS:3.1/AV:N/AC:L/PR:N/UI:N/S:U/C:L/I:N/A:N"]> (
    <["affected_component" := PStr "SSH"]> (
    <["affected_version" := PStr "OpenSSH 7.9"]> (
    <["exploit_available" := PBool false]> (
    <["patch_available" := PBool true]> (
    <["metadata" := PDict (
        <["port" := PStr "22"]> (
        <["protocol" := PStr "tcp"]> (
        <["solution" := PStr "Configure SSH server to disable weak encryption algorithms."]> ∅)))]> ∅))))))))));
    <["title" := PStr "HTTP TRACE/TRACK Methods Allowed"]> (
    <["description" := PStr "The HTTP TRACE/TRACK methods are enabled on the web server."]> (
    <["cve_id" := PStr "CVE-2004-2320"]> (
    <["severity" := PStr "low"]> (
    <["cvss_score" := PFloat 3.7]> (
    <["cvss_vector" := PStr "CVSS:3.1/AV:N/AC:H/PR:N/UI:N/S:U/C:L/I:N/A:N"]> (
    <["affected_component" := PStr "Web Server"]> (
    <["affected_version" := PStr "Apache 2.4.41"]> (
    <["exploit_available" := PBool true]> (
    <["patch_available" := PBool true]> (
    <["metadata" := PDict (
        <["port" := PStr "80"]> (
        <["protocol" := PStr "tcp"]> (
        <["solution" := PStr "Disable TRACE/TRACK methods in web server configuration."]> ∅)))]> ∅)))))))))) ].

Definition run_openvas_scan (scan : scan.Scan) : AdapterResult :=
  {| status := "success";
     message := "Scan completed successfully";
     findings := openvas_findings;
     raw_output := Some (PDict (<["results" := PList (PDict <$> openvas_findings)]> ∅)) |}.

(** The finding built from one vulnerability [vuln] of [dependency]. *)
Definition dependency_check_finding (env : environment) (dependency vuln : pyval)
    : Py.result (gmap string pyval) :=
  title ← get vuln "name" (PStr "Unknown");
  description ← get vuln "description" (PStr "");
  cve_id ← get vuln "name" (PStr "");
  severity ← get vuln "severity" (PStr "") ≫= lower;
  cvssv3 ← get vuln "cvssv3" (PDict ∅);
  cvss_score ← get cvssv3 "baseScore" (PFloat 0.0) ≫= float (rt env);
  cvssv3' ← get vuln "cvssv3" (PDict ∅);
  cvss_vector ← get cvssv3' "attackVector" (PStr "");
  affected_component ← get dependency "fileName" (PStr "");
  affected_version ← get dependency "version" (PStr "");
  package_name ← get dependency "fileName" (PStr "");
  references ← get vuln "references" (PList []);
  mret (<["title" := title]> (
        <["description" := description]> (
        <["cve_id" := cve_id]> (
        <["severity" := PStr severity]> (
        <["cvss_score" := PFloat cvss_score]> (
        <["cvss_vector" := cvss_vector]> (
        <["affected_component" := affected_component]> (
        <["affected_version" := affected_version]> (
        <["exploit_available" := PBool false]> (
        <["patch_available" := PBool true]> (
        <["metadata" := PDict (
            <["package_name" := package_name]> (
            <["references" := references]> ∅))]> ∅))))))))))).

Definition report_path (scan_id : Z) : string :=
  "dependency-check-report-" +:+ pretty scan_id +:+ ".json".

Definition dependency_check_cmd (env : environment) (scan_id : Z) (scan : scan.Scan)
    : list string :=
  let cmd := [DEPENDENCY_CHECK_PATH env; "--scan"; scan.target_identifier scan;
              "--format"; "JSON"; "--out"; report_path scan_id] in
  if String.eqb (scan.scan_depth scan) "quick" then (cmd ++ ["--disableRetireJS"])%list
  else if String.eqb (scan.scan_depth scan) "deep"
       then (cmd ++ ["--enableExperimental"])%list
  else cmd.

(** The [try] block of [run_dependency_check_scan]. *)
Definition run_dependency_check_scan_body (env : environment) (scan_id : Z)
    (scan : scan.Scan) : Py.result AdapterResult :=
  _ ← subprocess_run env (dependency_check_cmd env scan_id scan);
  text ← open_read env (report_path scan_id);
  output ← json_loads env text;
  _ ← os_remove env (report_path scan_id);
  dependencies ← get output "dependencies" (PList []) ≫= iter;
  findings ← for_each (λ dependency,
      vulns ← get dependency "vulnerabilities" (PList []) ≫= iter;
      for_each (dependency_check_finding env dependency) vulns) dependencies;
  mret {| status := "success";
          message := "Scan completed successfully";
          findings := concat findings;
          raw_output := Some output |}.

Definition run_dependency_check_scan (env : environment) (scan_id : Z)
    (scan : scan.Scan) : AdapterResult :=
  try_except (run_dependency_check_scan_body env scan_id scan) (λ e,
    match e with
    | CalledProcessError stderr =>
        {| status := "failed";
           message := "Dependency-Check scan failed: " +:+ stderr;
           findings := [];
           raw_output := None |}
    | _ =>
        {| status := "failed";
           message := "Error running Dependency-Check scan: " +:+ str_of_exn e;
           findings := [];
           raw_output := None |}
    end).

Definition process_scan_findings (now : Z) (db : Session) (scan_id : Z)
    (findings : list (gmap string pyval)) : Session :=
  match scans db !! scan_id with
  | None => db
  | Some scan =>
      foldl (λ db finding,
               (create_vulnerability_from_finding now db scan_id
                  (scan.asset_id scan) finding).1)
            db findings
  end.

(** [sum(1 for f in findings if f.get("severity") == level)] *)
Definition count_severity (level : string) (findings : list (gmap string pyval)) : nat :=
  length (filter (λ f, eq_str (dict_get f "severity" PNone) level = true) findings).

(** What the task returns: the adapter's dictionary, or a two-key
    dictionary [{"status": "failed", "message": ...}] of its own. *)
Inductive TaskResult :=
| Results (results : AdapterResult)
| Failed (message : string).

(** The task's effect: the database it leaves, the value it returns and
    the adapters it called, in order. *)
Record outcome := mkOutcome {
  db_after : Session;
  returned : TaskResult;
  adapters_invoked : list string;
}.

(** The [except Exception as e] clause of [run_scan_task]. *)
Definition run_scan_task_except (env : environment) (now : Z) (db : Session)
    (scan_id : Z) (invoked : list string) (e : exn) : outcome :=
  let db := (update_scan_status now db scan_id "failed" (Some (str_of_exn e))
               None None None None None).1 in
  let _ := send_notification env "Scan Failed"
             ("Scan failed with exception: " +:+ str_of_exn e) "error" in
  mkOutcome db (Failed (str_of_exn e)) invoked.

(** The part of [run_scan_task] headed "Process scan results", with the
    [except] clause around it: [db] is the database after the scan was
    marked [running], [results] what the adapter returned. *)
Definition process_results (env : environment) (now : Z) (db : Session)
    (scan_id : Z) (scan : scan.Scan) (adapter : string) (results : AdapterResult)
    : outcome :=
  if String.eqb (status results) "success" then
    let db := process_scan_findings now db scan_id (findings results) in
    let db := (update_scan_status now db scan_id "completed"
                 (Some ("Scan completed successfully with "
                        +:+ pretty (length (findings results)) +:+ " findings"))
                 (Some (length (findings results)))
                 (Some (count_severity "critical" (findings results)))
                 (Some (count_severity "high" (findings results)))
                 (Some (count_severity "medium" (findings results)))
                 (Some (count_severity "low" (findings results)))).1 in
    match send_notification env "Scan Completed"
            ("Scan '" +:+ scan.name scan +:+ "' completed successfully with "
             +:+ pretty (length (findings results)) +:+ " findings")
            "success" with
    | Ok _ => mkOutcome db (Results results) [adapter]
    | Raise e => run_scan_task_except env now db scan_id [adapter] e
    end
  else
    let db := (update_scan_status now db scan_id "failed"
                 (Some (message results)) None None None None None).1 in
    match send_notification env "Scan Failed"
            ("Scan '" +:+ scan.name scan +:+ "' failed: " +:+ message results)
            "error" with
    | Ok _ => mkOutcome db (Results results) [adapter]
    | Raise e => run_scan_task_except env now db scan_id [adapter] e
    end.

Definition run_scan_task (env : environment) (now : Z) (db : Session) (scan_id : Z)
    : outcome :=
  match scans db !! scan_id with
  | None =>
      mkOutcome db (Failed ("Scan with ID " +:+ pretty scan_id +:+ " not found")) []
  | Some scan =>
      (* scan.status = "running"; scan.started_at = now; the commit sets
         updated_at through the column's onupdate *)
      let scan := scan.set_status "running" scan in
      let scan := scan.set_started_at (Some now) scan in
      let scan := scan.set_updated_at now scan in
      let db := with_scans <[scan_id := scan]> db in
      if String.eqb (scan.scanner_type scan) "trivy" then
        process_results env now db scan_id scan "trivy" (run_trivy_scan env scan)
      else if String.eqb (scan.scanner_type scan) "openvas" then
        process_results env now db scan_id scan "openvas" (run_openvas_scan scan)
      else if String.eqb (scan.scanner_type scan) "dependency-check" then
        process_results env now db scan_id scan "dependency-check"
          (run_dependency_check_scan env scan_id scan)
      else
        let msg := "Unsupported scanner type: " +:+ scan.scanner_type scan in
        let db := (update_scan_status now db scan_id "failed" (Some msg)
                     None None None None None).1 in
        mkOutcome db (Failed msg) []
  end.

End scan_tasks.

(** ** app/services/ml_service.py *)

Module ml_service.

(** [get_priority_class] *)
Definition get_priority_class (score : Q) : string :=
  if Qle_bool 0.8 score then "critical"
  else if Qle_bool 0.6 score then "high"
  else if Qle_bool 0.4 score then "medium"
  else "low".

(** [int(value == level)] *)
Definition indicator (value level : string) : pyval :=
  PInt (if String.eqb value level then 1 else 0).

(** [_get_vulnerability_features].  The dictionary it returns keeps the
    order in which its keys were inserted, hence the association list. *)
Definition _get_vulnerability_features (rt : runtime)
    (vulnerability_data : gmap string pyval) : result (list (string * pyval)) :=
  let cvss_score := dict_get vulnerability_data "cvss_score" (PFloat 0.0) in
  exploit_available ← int rt (dict_get vulnerability_data "exploit_available" (PBool false));
  patch_available ← int rt (dict_get vulnerability_data "patch_available" (PBool false));
  severity ← lower (dict_get vulnerability_data "severity" (PStr "low"));
  exploit_maturity ← lower (dict_get vulnerability_data "exploit_maturity" (PStr ""));
  business_impact ← lower (dict_get vulnerability_data "business_impact" (PStr ""));
  data_classification ← lower (dict_get vulnerability_data "data_classification" (PStr ""));
  system_exposure ← lower (dict_get vulnerability_data "system_exposure" (PStr ""));
  mret [ ("cvss_score", cvss_score);
         ("exploit_available", PInt exploit_available);
         ("patch_available", PInt patch_available);
         ("severity_critical", indicator severity "critical");
         ("severity_high", indicator severity "high");
         ("severity_medium", indicator severity "medium");
         ("severity_low", indicator severity "low");
         ("exploit_maturity_high", indicator exploit_maturity "high");
         ("exploit_maturity_functional", indicator exploit_maturity "functional");
         ("exploit_maturity_poc", indicator exploit_maturity "poc");
         ("exploit_maturity_unproven", indicator exploit_maturity "unproven");
         ("business_impact_critical", indicator business_impact "critical");
         ("business_impact_high", indicator business_impact "high");
         ("business_impact_medium", indicator business_impact "medium");
         ("business_impact_low", indicator business_impact "low");
         ("data_classification_restricted", indicator data_classification "restricted");
         ("data_classification_confidential", indicator data_classification "confidential");
         ("data_classification_internal", indicator data_classification "internal");
         ("data_classification_public", indicator data_classification "public");
         ("system_exposure_internet", indicator system_exposure "internet");
         ("system_exposure_intranet", indicator system_exposure "intranet");
         ("system_exposure_internal", indicator system_exposure "internal");
         ("system_exposure_isolated", indicator system_exposure "isolated") ].

Definition get_model (db : Session) (model_id : Z) : option ml_model.MLModel :=
  ml_models db !! model_id.

(** Truth value of a nullable [LargeBinary]: [None] and [b''] are false. *)
Definition bytes_truthy (data : option (list Byte.byte)) : bool :=
  match data with
  | Some (_ :: _) => true
  | _ => false
  end.

(** [.filter(MLModel.status == "trained").filter(MLModel.model_data.isnot(None))] *)
Definition trained_with_data (row : Z * ml_model.MLModel) : bool :=
  String.eqb (ml_model.status row.2) "trained"
  && bool_decide (is_Some (ml_model.model_data row.2)).

(** [.order_by(MLModel.updated_at.desc()).limit(1).all()]: a row whose
    [updated_at] is greatest.  Which one among several with the same
    [updated_at] is left to the database; here it is the first in the
    table's enumeration. *)
Definition order_by_updated_at_desc_limit_1 (rows : list (Z * ml_model.MLModel))
    : option (Z * ml_model.MLModel) :=
  foldr (λ row best,
           match best with
           | None => Some row
           | Some b =>
               if (ml_model.updated_at b.2 <=? ml_model.updated_at row.2)%Z
               then Some row else Some b
           end) None rows.

Definition _get_latest_model (db : Session) (model_id : option Z)
    : option (Z * ml_model.MLModel) :=
  let explicit :=
    match model_id with
    | Some i =>
        if negb (i =? 0)%Z then
          match get_model db i with
          | Some model =>
              if String.eqb (ml_model.status model) "trained"
                 && bytes_truthy (ml_model.model_data model)
              then Some (i, model) else None
          | None => None
          end
        else None
    | None => None
    end in
  match explicit with
  | Some found => Some found
  | None =>
      order_by_updated_at_desc_limit_1
        (filter (λ row, trained_with_data row = true) (map_to_list (ml_models db)))
  end.

(** numpy, scikit-learn and pickle, as far as the service calls them.
    Arrays are lists, a matrix a list of rows; fitted estimators are opaque
    to the service. *)
Record sklearn := {
  estimator : Type;
  (** entry [(i, j)] of [np.random.rand(n_samples, n_features)], drawn
      after [np.random.seed(42)] *)
  np_random_rand : nat → nat → Q;
  (** [train_test_split(X, y, test_size=0.2, random_state=42)]:
      [X_train, X_test, y_train, y_test] *)
  train_test_split :
    list (list Q) → list Q →
    result (list (list Q) * list (list Q) * list Q * list Q);
  (** [GradientBoostingClassifier(n_estimators, learning_rate, max_depth,
      random_state=42)] followed by [fit(X_train, y_train)] *)
  GradientBoostingClassifier_fit :
    pyval → pyval → pyval → list (list Q) → list Q → result estimator;
  (** [model.predict(X_test)] *)
  predict_labels : estimator → list (list Q) → result (list Q);
  (** the scores of [sklearn.metrics], each given [y_test] and [y_pred];
      the last three with [average="weighted"] *)
  accuracy_score : list Q → list Q → result Q;
  precision_score : list Q → list Q → result Q;
  recall_score : list Q → list Q → result Q;
  f1_score : list Q → list Q → result Q;
  feature_importances_ : estimator → option (list Q);
  pickle_dumps : estimator → result (list Byte.byte);
  pickle_loads : option (list Byte.byte) → result estimator;
  (** [float(model.predict(X)[0])] *)
  predict : estimator → list pyval → result Q;
}.

(** [(column > bound).astype(int)] at one row *)
Definition above (x bound : Q) : Q := if Qle_bool x bound then 0 else 1.

(** [((column > low) & (column <= high)).astype(int)] at one row *)
Definition within (x low high : Q) : Q :=
  if negb (Qle_bool x low) && Qle_bool x high then 1 else 0.

(** The label [_generate_synthetic_training_data] computes for one row [x]
    of the feature matrix: a weighted sum of five of its columns, clipped
    to [0, 10]. *)
Definition priority_label (x : nat → Q) : Q :=
  let cvss_score := (x 0%nat * 10)%Q in
  let exploit_available := above (x 1%nat) 0.7 in
  let patch_available := above (x 2%nat) 0.5 in
  let severity_critical := above (x 3%nat) 0.8 in
  let severity_high := within (x 3%nat) 0.6 0.8 in
  let business_impact_critical := above (x 4%nat) 0.8 in
  let business_impact_high := within (x 4%nat) 0.6 0.8 in
  let y := (cvss_score * 0.4
            + exploit_available * 2.0
            + (1 - patch_available) * 1.5
            + severity_critical * 2.5
            + severity_high * 1.5
            + business_impact_critical * 2.0
            + business_impact_high * 1.0)%Q in
  Qmin (Qmax y 0) 10.

(** [_generate_synthetic_training_data]: 1000 rows of 25 random features
    and the label of each row. *)
Definition _generate_synthetic_training_data (sk : sklearn)
    : list (list Q) * list Q :=
  let n_samples := 1000%nat in
  let n_features := 25%nat in
  let X := (λ i, np_random_rand sk i <$> seq 0 n_features) <$> seq 0 n_samples in
  let y := (λ i, priority_label (np_random_rand sk i)) <$> seq 0 n_samples in
  (X, y).

(** One element of the sequence handed to [dict.update]: it has to yield
    exactly two items, a key and a value.  The dictionaries of the model
    are keyed by strings, so a key of another type is refused here, also
    where Python would hash it. *)
Definition update_item (d : gmap string pyval) (item : pyval)
    : result (gmap string pyval) :=
  match iter item with
  | Ok [PStr key; value] => Ok (<[key := value]> d)
  | Ok [_; _] => Raise (TypeError "unhashable type")
  | Ok _ =>
      Raise (ValueError "dictionary update sequence element has the wrong length; 2 is required")
  | Raise _ =>
      Raise (TypeError "cannot convert dictionary update sequence element to a sequence")
  end.

Fixpoint update_items (d : gmap string pyval) (items : list pyval)
    : result (gmap string pyval) :=
  match items with
  | [] => Ok d
  | item :: items' => d' ← update_item d item; update_items d' items'
  end.

(** [hyperparameters.update(other)]: the entries of a dictionary, or the
    key-value pairs an iterable yields, replace and extend those of
    [hyperparameters]. *)
Definition dict_update (hyperparameters : gmap string pyval) (other : pyval)
    : result (gmap string pyval) :=
  match other with
  | PDict d => Ok (d ∪ hyperparameters)
  | _ => items ← iter other; update_items hyperparameters items
  end.

(** [enumerate(model.feature_importances_)] as [feature_i] entries *)
Definition importance_entries (importances : list Q) : list (string * Q) :=
  imap (λ i importance, ("feature_" +:+ pretty i, importance)) importances.

(** The steps of [train_model] between the commit of [training] and the
    first assignment to the record: data, split, hyper-parameters, fit,
    evaluation, importances, serialisation. *)
Definition fit_steps (sk : sklearn) (db_model : ml_model.MLModel)
    (params : gmap string pyval)
    : result (gmap string pyval * gmap string pyval * list (string * Q) * list Byte.byte) :=
  let '(X, y) := _generate_synthetic_training_data sk in
  '(X_train, X_test, y_train, y_test) ← train_test_split sk X y;
  hyperparameters ← dict_update (ml_model.hyperparameters db_model)
                       (dict_get params "hyperparameters" (PDict ∅));
  model ← GradientBoostingClassifier_fit sk
             (dict_get hyperparameters "n_estimators" (PInt 100))
             (dict_get hyperparameters "learning_rate" (PFloat 0.1))
             (dict_get hyperparameters "max_depth" (PInt 3))
             X_train y_train;
  y_pred ← predict_labels sk model X_test;
  accuracy ← accuracy_score sk y_test y_pred;
  precision ← precision_score sk y_test y_pred;
  recall ← recall_score sk y_test y_pred;
  f1 ← f1_score sk y_test y_pred;
  let metrics : gmap string pyval :=
    <["accuracy" := PFloat accuracy]> (
    <["precision" := PFloat precision]> (
    <["recall" := PFloat recall]> (
    <["f1" := PFloat f1]> ∅))) in
  importances ← match feature_importances_ sk model with
                 | Some l => Ok l
                 | None => Raise (AttributeError "feature_importances_")
                 end;
  model_data ← pickle_dumps sk model;
  mret (hyperparameters, metrics, importance_entries importances, model_data).

Definition train_model (sk : sklearn) (now : Z) (db : Session) (model_id : Z)
    (params : gmap string pyval) : Session * option ml_model.MLModel :=
  match get_model db model_id with
  | None => (db, None)
  | Some db_model =>
      (* status = "training"; commit *)
      let db_model := ml_model.set_status "training" now db_model in
      let db := with_ml_models <[model_id := db_model]> db in
      match fit_steps sk db_model params with
      | Ok (hyperparameters, metrics, feature_importance, model_data) =>
          let db_model :=
            ml_model.mkMLModel (ml_model.name db_model) (ml_model.version db_model)
              hyperparameters metrics feature_importance (Some model_data)
              "trained" now in
          (with_ml_models <[model_id := db_model]> db, Some db_model)
      | Raise e =>
          let db_model := ml_model.set_status "error" now db_model in
          (with_ml_models <[model_id := db_model]> db, None)
      end
  end.

(** [MLPrediction], which the service imports from [app.schemas.ml]; the
    sources declare no class of that name.  The fields are the keyword
    arguments of the one constructor call, in
    [predict_vulnerability_priority], and hold what the call gives them. *)
Record MLPrediction := mkMLPrediction {
  priority_score : Q;
  model_id : Z;
  model_name : string;
  model_version : option string;
  explanation : list (string * Q);
  timestamp : Z;
}.

(** The [try] block of [predict_vulnerability_priority]. *)
Definition predict_body (sk : sklearn) (rt : runtime) (now : Z)
    (found : Z * ml_model.MLModel) (vulnerability_data : gmap string pyval)
    : result MLPrediction :=
  features ← _get_vulnerability_features rt vulnerability_data;
  let feature_names := features.*1 in
  let X := features.*2 in
  model ← pickle_loads sk (ml_model.model_data found.2);
  priority_score ← predict sk model X;
  explanation ←
    match feature_importances_ sk model with
    | Some importances =>
        for_each (λ '(i, name),
                    match importances !! i with
                    | Some x => Ok (name, x)
                    | None => Raise (IndexError "index out of bounds")
                    end)
                 (imap (λ i name, (i, name)) feature_names)
    | None => Ok []
    end;
  mret {| priority_score := priority_score;
          model_id := found.1;
          model_name := ml_model.name found.2;
          model_version := ml_model.version found.2;
          explanation := explanation;
          timestamp := now |}.

Definition predict_vulnerability_priority (sk : sklearn) (rt : runtime) (now : Z)
    (db : Session) (vulnerability_data : gmap string pyval) (model_id : option Z)
    : result MLPrediction :=
  match _get_latest_model db model_id with
  | None => Raise (ValueError "No trained model found")
  | Some db_model =>
      match predict_body sk rt now db_model vulnerability_data with
      | Ok prediction => Ok prediction
      | Raise e =>
          Raise (ValueError ("Error predicting vulnerability priority: "
                             +:+ str_of_exn e))
      end
  end.


(** [generate_recommended_action]; the vulnerability data is not used. *)
Definition generate_recommended_action (priority_score : Q)
    (vulnerability_data : gmap string pyval) : string :=
  let priority_class := get_priority_class priority_score in
  if String.eqb priority_class "critical" then
    "Immediate remediation required. Create high-priority ticket and patch within 24 hours."
  else if String.eqb priority_class "high" then
    "Remediate within 7 days. Create ticket and schedule patching."
  else if String.eqb priority_class "medium" then
    "Remediate within 30 days. Include in next patch cycle."
  else
    "Remediate as part of regular maintenance. No immediate action required.".

End ml_service.

(** ** Predicates the statements below use, and concrete data *)

(** The column [field] holds the finding's value under [key] when the key
    is present, and [dflt] when it is absent. *)
Definition present_or_default (finding : gmap string pyval) (key : string)
    (dflt field : pyval) : Prop :=
  (finding !! key = None ∧ field = dflt) ∨ finding !! key = Some field.

(** The keys of the feature dictionary, in insertion order. *)
Definition feature_names : list string :=
  [ "cvss_score"; "exploit_available"; "patch_available";
    "severity_critical"; "severity_high"; "severity_medium"; "severity_low";
    "exploit_maturity_high"; "exploit_maturity_functional";
    "exploit_maturity_poc"; "exploit_maturity_unproven";
    "business_impact_critical"; "business_impact_high";
    "business_impact_medium"; "business_impact_low";
    "data_classification_restricted"; "data_classification_confidential";
    "data_classification_internal"; "data_classification_public";
    "system_exposure_internet"; "system_exposure_intranet";
    "system_exposure_internal"; "system_exposure_isolated" ].

(** Values [int] accepts. *)
Definition int_convertible (rt : runtime) (v : pyval) : Prop :=
  match v with
  | PBool _ | PInt _ | PFloat _ => True
  | PStr s => is_Some (parse_int rt s)
  | _ => False
  end.

Definition is_str (v : pyval) : Prop := ∃ s, v = PStr s.

(** The fields of [vulnerability_data] that are present have the type the
    extractor expects: the two flags convert to [int], the five
    categorical fields are strings. *)
Definition well_typed (rt : runtime) (d : gmap string pyval) : Prop :=
  (∀ k v, k ∈ ["exploit_available"; "patch_available"] →
          d !! k = Some v → int_convertible rt v)
  ∧ (∀ k v, k ∈ ["severity"; "exploit_maturity"; "business_impact";
                 "data_classification"; "system_exposure"] →
            d !! k = Some v → is_str v).

(** A model that can serve predictions: trained, with a payload that is
    not null. *)
Definition usable (m : ml_model.MLModel) : Prop :=
  ml_model.status m = "trained" ∧ is_Some (ml_model.model_data m).

Definition some_usable (db : Session) : Prop :=
  ∃ i m, ml_models db !! i = Some m ∧ usable m.

(** [found] is a usable row of the table, and no usable row was updated
    after it. *)
Definition latest_usable (db : Session) (found : Z * ml_model.MLModel) : Prop :=
  ml_models db !! found.1 = Some found.2
  ∧ usable found.2
  ∧ ∀ i m, ml_models db !! i = Some m → usable m →
           (ml_model.updated_at m ≤ ml_model.updated_at found.2)%Z.

(** The request names model [i], [i] is not 0, and row [i] is trained with
    a payload that is neither null nor empty. *)
Definition explicit_choice (db : Session) (model_id : option Z)
    (i : Z) (m : ml_model.MLModel) : Prop :=
  model_id = Some i ∧ i ≠ 0%Z
  ∧ ml_models db !! i = Some m
  ∧ ml_model.status m = "trained"
  ∧ ∃ b bs, ml_model.model_data m = Some (b :: bs).

(** The rows of the model table are rows the service can have written.
    A row's id is the primary key the database assigned to it, which is
    never 0; and the only assignment to [model_data] in the sources stores
    [pickle.dumps(model)], which is never the empty byte string.  (The test
    on the model named in a request reads [model_id] and [model_data] as
    truth values, so it would take an id 0 or a payload [b''] for
    absent.) *)
Definition written_by_service (db : Session) : Prop :=
  ∀ i m, ml_models db !! i = Some m →
         i ≠ 0%Z ∧ ml_model.model_data m ≠ Some [].

(** The ways a Trivy run fails outside the process: the scanner exits
    non-zero, it cannot be run at all, or its output is not JSON. *)
Inductive trivy_failure (env : scan_tasks.environment) (scan : scan.Scan) : Prop :=
| trivy_nonzero_exit stderr :
    scan_tasks.subprocess_run env (scan_tasks.trivy_cmd env scan)
      = Raise (CalledProcessError stderr) →
    trivy_failure env scan
| trivy_io_error msg :
    scan_tasks.subprocess_run env (scan_tasks.trivy_cmd env scan)
      = Raise (OSError msg) →
    trivy_failure env scan
| trivy_malformed_json stdout msg :
    scan_tasks.subprocess_run env (scan_tasks.trivy_cmd env scan) = Ok stdout →
    scan_tasks.json_loads env stdout = Raise (JSONDecodeError msg) →
    trivy_failure env scan.

(** The same for Dependency-Check, whose report is read from a file. *)
Inductive dependency_check_failure (env : scan_tasks.environment)
    (scan_id : Z) (scan : scan.Scan) : Prop :=
| dependency_check_nonzero_exit stderr :
    scan_tasks.subprocess_run env (scan_tasks.dependency_check_cmd env scan_id scan)
      = Raise (CalledProcessError stderr) →
    dependency_check_failure env scan_id scan
| dependency_check_io_error msg :
    scan_tasks.subprocess_run env (scan_tasks.dependency_check_cmd env scan_id scan)
      = Raise (OSError msg) →
    dependency_check_failure env scan_id scan
| dependency_check_unreadable_report stdout msg :
    scan_tasks.subprocess_run env (scan_tasks.dependency_check_cmd env scan_id scan)
      = Ok stdout →
    scan_tasks.open_read env (scan_tasks.report_path scan_id) = Raise (OSError msg) →
    dependency_check_failure env scan_id scan
| dependency_check_malformed_json stdout text msg :
    scan_tasks.subprocess_run env (scan_tasks.dependency_check_cmd env scan_id scan)
      = Ok stdout →
    scan_tasks.open_read env (scan_tasks.report_path scan_id) = Ok text →
    scan_tasks.json_loads env text = Raise (JSONDecodeError msg) →
    dependency_check_failure env scan_id scan.

(** The dictionary of a failed adapter run. *)
Definition failed_result (message : string) : scan_tasks.AdapterResult :=
  scan_tasks.mkAdapterResult "failed" message [] None.

(** The scanner kinds the schema admits, and those the task dispatches. *)
Definition scanner_kinds : list string :=
  ["trivy"; "openvas"; "dependency-check"; "custom"].


(** The number of records of a given severity. *)
Definition count_records (level : string)
    (records : list vulnerability.Vulnerability) : nat :=
  length (filter (λ v, eq_str (vulnerability.severity v) level = true) records).

Definition severity_levels : list string := ["critical"; "high"; "medium"; "low"].

(** The severity of the record is one of the four levels. *)
Definition known_severity (v : vulnerability.Vulnerability) : Prop :=
  ∃ level, level ∈ severity_levels ∧ vulnerability.severity v = PStr level.

(** The finding carries a severity, and it is a string. *)
Definition has_severity (finding : gmap string pyval) : Prop :=
  ∃ s, finding !! "severity" = Some (PStr s).

(** The record [create_vulnerability_from_finding] builds for a scan. *)
Definition record_of (now scan_id : Z) (asset_id : option Z)
    (finding : gmap string pyval) : vulnerability.Vulnerability :=
  (scan_service.create_vulnerability_from_finding now (mkSession ∅ [] ∅)
     scan_id asset_id finding).2.

(** The adapter the task dispatches a scan to, with what it returns. *)
Definition dispatched (env : scan_tasks.environment) (scan_id : Z) (scan : scan.Scan)
    : option (string * scan_tasks.AdapterResult) :=
  if String.eqb (scan.scanner_type scan) "trivy"
  then Some ("trivy", scan_tasks.run_trivy_scan env scan)
  else if String.eqb (scan.scanner_type scan) "openvas"
  then Some ("openvas", scan_tasks.run_openvas_scan scan)
  else if String.eqb (scan.scanner_type scan) "dependency-check"
  then Some ("dependency-check", scan_tasks.run_dependency_check_scan env scan_id scan)
  else None.

(** The scan as the task marks it before it calls the adapter. *)
Definition marked_running (now : Z) (scan : scan.Scan) : scan.Scan :=
  scan.set_updated_at now
    (scan.set_started_at (Some now) (scan.set_status "running" scan)).

(** The severity of the record is a string without upper-case letters. *)
Definition lower_case_severity (v : vulnerability.Vulnerability) : Prop :=
  ∃ s, vulnerability.severity v = PStr s ∧ str_lower s = s.


(** The row of a scan the task has completed at [now] with the findings
    [fs]. *)
Definition completed_row (now : Z) (scan : scan.Scan)
    (fs : list (gmap string pyval)) : scan.Scan :=
  scan.mkScan (scan.name scan) (scan.scanner_type scan) (scan.asset_id scan)
    (scan.target_type scan) (scan.target_identifier scan) (scan.scan_depth scan)
    "completed" now (Some now) (Some now)
    (length fs)
    (scan_tasks.count_severity "critical" fs) (scan_tasks.count_severity "high" fs)
    (scan_tasks.count_severity "medium" fs) (scan_tasks.count_severity "low" fs).

(** The row of a scan marked [failed] at [now]. *)
Definition failed_row (now : Z) (row : scan.Scan) : scan.Scan :=
  scan.set_updated_at now (scan.set_status "failed" row).

(** The records the task stores for the findings [fs] of a scan. *)
Definition records_of (now scan_id : Z) (scan : scan.Scan)
    (fs : list (gmap string pyval)) : list vulnerability.Vulnerability :=
  record_of now scan_id (scan.asset_id scan) <$> fs.


(** Text that stays within ASCII. *)
Definition ascii_text (s : string) : Prop :=
  Forall (λ c, (nat_of_ascii c < 128)%nat) (list_ascii_of_string s).

(** [lower] does on ASCII text what [str_lower] does, as [str.lower]
    does. *)
Definition lowers_ascii (lower : string → string) : Prop :=
  ∀ s, ascii_text s → lower s = str_lower s.

(** The finding carries a severity that is a lower-case string. *)
Definition lower_severity (finding : gmap string pyval) : Prop :=
  ∃ s, finding !! "severity" = Some (PStr s) ∧ str_lower s = s.

(** A result of a Trivy report that lists no vulnerability: the key is
    missing or holds an empty list. *)
Definition clean_result (r : pyval) : Prop :=
  ∃ rd, r = PDict rd
        ∧ (rd !! "Vulnerabilities" = None ∨ rd !! "Vulnerabilities" = Some (PList [])).

Module examples.

Definition running_scan : scan.Scan :=
  scan.mkScan "nightly" "trivy" (Some 7%Z) "container" "ubuntu:20.04" "normal"
    "running" 100 (Some 100%Z) None 0 0 0 0 0.

Definition completed_scan : scan.Scan :=
  scan.mkScan "nightly" "trivy" (Some 7%Z) "container" "ubuntu:20.04" "normal"
    "completed" 150 (Some 100%Z) (Some 150%Z) 2 1 0 0 1.

Definition empty_session : Session := mkSession ∅ [] ∅.


Definition dependency_scan : scan.Scan :=
  scan.mkScan "libraries" "dependency-check" (Some 7%Z) "repository" "/srv/app" "normal"
    "pending" 50 None None 0 0 0 0 0.

Definition trivy_scan : scan.Scan :=
  scan.mkScan "image" "trivy" (Some 7%Z) "container" "ubuntu:20.04" "quick"
    "pending" 50 None None 0 0 0 0 0.

Definition openvas_scan : scan.Scan :=
  scan.mkScan "perimeter" "openvas" (Some 7%Z) "host" "10.0.0.5" "normal"
    "pending" 50 None None 0 0 0 0 0.

Definition pending_scan : scan.Scan :=
  scan.mkScan "weekly" "openvas" (Some 7%Z) "host" "10.0.0.9" "deep"
    "pending" 40 None None 0 0 0 0 0.


Definition session_with (s : scan.Scan) : Session :=
  with_scans <[1%Z := s]> empty_session.

(** A Dependency-Check report with one vulnerability rated MODERATE. *)
Definition moderate_report : pyval :=
  PDict (<["dependencies" := PList [
    PDict (<["fileName" := PStr "lodash.js"]> (
           <["vulnerabilities" := PList [
             PDict (<["name" := PStr "CVE-2019-10744"]> (
                    <["severity" := PStr "MODERATE"]> ∅)) ]]> ∅)) ]]> ∅).

(** Scanners that run and write that report. *)
Definition moderate_environment : scan_tasks.environment :=
  {| scan_tasks.rt := {| parse_int := λ _, None; parse_float := λ _, None |};
     scan_tasks.TRIVY_PATH := "trivy";
     scan_tasks.DEPENDENCY_CHECK_PATH := "dependency-check";
     scan_tasks.subprocess_run := λ _, Ok "";
     scan_tasks.json_loads := λ _, Ok moderate_report;
     scan_tasks.open_read := λ _, Ok "{...}";
     scan_tasks.os_remove := λ _, Ok ();
     scan_tasks.send_notification := λ _ _ _, Ok () |}.

(** Scanners that exit with status 1. *)
Definition broken_environment : scan_tasks.environment :=
  {| scan_tasks.rt := {| parse_int := λ _, None; parse_float := λ _, None |};
     scan_tasks.TRIVY_PATH := "trivy";
     scan_tasks.DEPENDENCY_CHECK_PATH := "dependency-check";
     scan_tasks.subprocess_run := λ _, Raise (CalledProcessError "FATAL: image not found");
     scan_tasks.json_loads := λ _, Raise (JSONDecodeError "Expecting value");
     scan_tasks.open_read := λ _, Raise (OSError "No such file or directory");
     scan_tasks.os_remove := λ _, Ok ();
     scan_tasks.send_notification := λ _ _ _, Ok () |}.


Definition trained_model : ml_model.MLModel :=
  ml_model.mkMLModel "second" (Some "1.0") ∅ ∅ [] (Some [Byte.x80; Byte.x04]) "trained" 10.

Definition untrained_model : ml_model.MLModel :=
  ml_model.mkMLModel "third" None ∅ ∅ [] None "created" 20.

(** A table with a trained model and one that was never trained. *)
Definition model_session : Session :=
  with_ml_models (λ _, <[2%Z := trained_model]> (<[3%Z := untrained_model]> ∅))
    empty_session.

(** A library whose [fit] rejects the labels. *)
Definition failing_sklearn : ml_service.sklearn :=
  {| ml_service.estimator := ();
     ml_service.np_random_rand := λ i j, (inject_Z (Z.of_nat ((i + j) mod 10)) / 10)%Q;
     ml_service.train_test_split := λ X y, Ok (take 800 X, drop 800 X, take 800 y, drop 800 y);
     ml_service.GradientBoostingClassifier_fit :=
       λ _ _ _ _ _, Raise (ValueError "Unknown label type: continuous");
     ml_service.predict_labels := λ _ X, Ok (replicate (length X) 0%Q);
     ml_service.accuracy_score := λ _ _, Ok 0%Q;
     ml_service.precision_score := λ _ _, Ok 0%Q;
     ml_service.recall_score := λ _ _, Ok 0%Q;
     ml_service.f1_score := λ _ _, Ok 0%Q;
     ml_service.feature_importances_ := λ _, Some [];
     ml_service.pickle_dumps := λ _, Ok [Byte.x80];
     ml_service.pickle_loads := λ _, Ok ();
     ml_service.predict := λ _ _, Ok 0.5%Q |}.

(** A library whose steps all succeed; the fitted estimator reports 25
    importances, as the synthetic training data has 25 columns. *)
Definition working_sklearn : ml_service.sklearn :=
  {| ml_service.estimator := ();
     ml_service.np_random_rand := λ i j, (inject_Z (Z.of_nat ((i + j) mod 10)) / 10)%Q;
     ml_service.train_test_split := λ X y, Ok (take 800 X, drop 800 X, take 800 y, drop 800 y);
     ml_service.GradientBoostingClassifier_fit := λ _ _ _ _ _, Ok ();
     ml_service.predict_labels := λ _ X, Ok (replicate (length X) 0%Q);
     ml_service.accuracy_score := λ _ _, Ok 0.9%Q;
     ml_service.precision_score := λ _ _, Ok 0.9%Q;
     ml_service.recall_score := λ _ _, Ok 0.9%Q;
     ml_service.f1_score := λ _ _, Ok 0.9%Q;
     ml_service.feature_importances_ := λ _, Some (replicate 25 0.04%Q);
     ml_service.pickle_dumps := λ _, Ok [Byte.x80; Byte.x05];
     ml_service.pickle_loads := λ _, Ok ();
     ml_service.predict := λ _ _, Ok 7.5%Q |}.

(** A vulnerability as a Trivy report lists it. *)
Definition trivy_vulnerability : gmap string pyval :=
  <["VulnerabilityID" := PStr "CVE-2021-3711"]> (
  <["Severity" := PStr "CRITICAL"]> (
  <["FixedVersion" := PStr "1.1.1l"]> ∅)).

(** The finding the Trivy adapter builds from it. *)
Definition trivy_example_finding : gmap string pyval :=
  Eval vm_compute in
    match scan_tasks.trivy_finding moderate_environment (PDict ∅)
            (PDict trivy_vulnerability) with
    | Ok finding => finding
    | Raise _ => ∅
    end.

(** A runtime whose [int(str)] and [float(str)] reject every string. *)
Definition strict_runtime : runtime :=
  {| parse_int := λ _, None; parse_float := λ _, None |}.

(** The request body of the project's prediction test. *)
Definition test_vulnerability_data : gmap string pyval :=
  <["title" := PStr "Test Vulnerability"]> (
  <["severity" := PStr "high"]> (
  <["cvss_score" := PFloat 8.5]> (
  <["exploit_available" := PBool true]> (
  <["exploit_maturity" := PStr "functional"]> (
  <["patch_available" := PBool false]> (
  <["business_impact" := PStr "high"]> (
  <["data_classification" := PStr "confidential"]> (
  <["system_exposure" := PStr "internet"]> ∅)))))))).

Definition app_with (s : scan.Scan) : scans.app :=
  scans.mkApp (with_scans <[1%Z := s]> empty_session) [].

End examples.

(** ** Scan lifecycle: start and stop requests *)

Section lifecycle.

Import scan_service scans.

Lemma stop_scan_found now db scan_id scan :
  scans db !! scan_id = Some scan →
  stop_scan now db scan_id =
    (with_scans <[scan_id := scan.set_updated_at now (scan.set_status "stopped" scan)]> db,
     Some (scan.set_updated_at now (scan.set_status "stopped" scan))).
Proof. intros Hs. unfold stop_scan, get_scan. by rewrite Hs. Qed.

Lemma start_scan_found now db scan_id scan :
  scans db !! scan_id = Some scan →
  start_scan now db scan_id =
    (with_scans <[scan_id := scan.set_updated_at now
                    (scan.set_started_at (Some now) (scan.set_status "running" scan))]> db,
     Some (scan.set_updated_at now
             (scan.set_started_at (Some now) (scan.set_status "running" scan)))).
Proof. intros Hs. unfold start_scan, get_scan. by rewrite Hs. Qed.

(** The start endpoint never looks at the status of the scan it starts. *)
Lemma start_scan_endpoint_any_status now st scan_id scan :
  scans (db st) !! scan_id = Some scan →
  ∃ started,
    (start_scan_endpoint now st scan_id).2 = Respond (Some started)
    ∧ scan.status started = "running"
    ∧ scan.started_at started = Some now
    ∧ background_tasks (start_scan_endpoint now st scan_id).1
      = (background_tasks st ++ [scan_id])%list.
Proof.
  intros Hs. unfold start_scan_endpoint, get_scan. rewrite Hs.
  rewrite (start_scan_found _ _ _ _ Hs). cbn. eauto.
Qed.

(** C1 (the code departs from the claim): a start request against a scan
    that is already [running] is not rejected.  The endpoint answers with
    the scan, overwrites its start timestamp (100 becomes 200) and queues
    the scan task a second time; the same happens for a [completed] scan. *)
Theorem start_scan_endpoint_restarts_running_scan :
  let '(st, answer) := start_scan_endpoint 200 (examples.app_with examples.running_scan) 1 in
  (∃ started, answer = Respond (Some started)
              ∧ scan.status started = "running"
              ∧ scan.started_at started = Some 200%Z
              ∧ scan.started_at examples.running_scan = Some 100%Z)
  ∧ background_tasks st = [1%Z]
  ∧ ∃ started, (start_scan_endpoint 200 (examples.app_with examples.completed_scan) 1).2
               = Respond (Some started)
               ∧ scan.status started = "running".
Proof.
  vm_compute. split; [|split]; [eexists; repeat split; reflexivity | reflexivity |].
  eexists; split; reflexivity.
Qed.

(** C3: for a scan that exists, a stop request succeeds exactly when the
    scan is [running], and then leaves it [stopped]; in any other status
    the endpoint raises the 400 error "Scan is not running" and the
    application state, hence the scan, is what it was. *)
Theorem stop_scan_endpoint_only_when_running now st scan_id scan :
  scans (db st) !! scan_id = Some scan →
  (scan.status scan = "running" →
     ∃ stopped,
       stop_scan_endpoint now st scan_id
         = (mkApp (with_scans <[scan_id := stopped]> (db st)) (background_tasks st),
            Respond (Some stopped))
       ∧ scan.status stopped = "stopped")
  ∧ (scan.status scan ≠ "running" →
       stop_scan_endpoint now st scan_id
         = (st, HTTPException HTTP_400_BAD_REQUEST "Scan is not running")).
Proof.
  intros Hs. unfold stop_scan_endpoint, get_scan. rewrite Hs. split.
  - intros Hrun. rewrite Hrun. change ("running" =? "running")%string with true.
    cbn [negb]. rewrite (stop_scan_found _ _ _ _ Hs). eexists. split; [reflexivity|]. reflexivity.
  - intros Hnot. destruct (String.eqb (scan.status scan) "running") eqn:E.
    + apply String.eqb_eq in E. contradiction.
    + reflexivity.
Qed.

Lemma stop_scan_endpoint_only_when_running_witness :
  (∃ stopped,
     stop_scan_endpoint 200 (examples.app_with examples.running_scan) 1
       = (mkApp (with_scans <[1%Z := stopped]>
                   (db (examples.app_with examples.running_scan))) [],
          Respond (Some stopped))
     ∧ scan.status stopped = "stopped")
  ∧ stop_scan_endpoint 200 (examples.app_with examples.completed_scan) 1
    = (examples.app_with examples.completed_scan,
       HTTPException HTTP_400_BAD_REQUEST "Scan is not running").
Proof.
  split.
  - apply (stop_scan_endpoint_only_when_running 200
             (examples.app_with examples.running_scan) 1 examples.running_scan);
      reflexivity.
  - apply (stop_scan_endpoint_only_when_running 200
             (examples.app_with examples.completed_scan) 1 examples.completed_scan);
      [reflexivity | discriminate].
Defined.

End lifecycle.

(** ** Finding normalisation *)

Section normalizer.

Import scan_service.

(** C8: every column the normaliser fills from a finding holds the
    finding's value, unchanged, when the key is present.  When the key is
    absent, [title] is "Unknown", [description] the empty string,
    [severity] "low", [cvss_score] 0.0, and [exploit_available] and
    [patch_available] false; the nine other columns read from the finding
    default to the empty string, [metadata] to the empty dictionary.  The
    remaining columns do not depend on the finding: the record belongs to
    the given scan and asset, is [open] and is stamped with the time of the
    call.  It is appended to the vulnerability table and nothing else
    changes. *)
Theorem create_vulnerability_from_finding_defaults
    now db scan_id asset_id (finding : gmap string pyval) :
  let '(db', v) := create_vulnerability_from_finding now db scan_id asset_id finding in
  present_or_default finding "title" (PStr "Unknown") (vulnerability.title v)
  ∧ present_or_default finding "description" (PStr "") (vulnerability.description v)
  ∧ present_or_default finding "severity" (PStr "low") (vulnerability.severity v)
  ∧ present_or_default finding "cvss_score" (PFloat 0.0) (vulnerability.cvss_score v)
  ∧ present_or_default finding "exploit_available" (PBool false)
      (vulnerability.exploit_available v)
  ∧ present_or_default finding "patch_available" (PBool false)
      (vulnerability.patch_available v)
  ∧ present_or_default finding "cve_id" (PStr "") (vulnerability.cve_id v)
  ∧ present_or_default finding "cvss_vector" (PStr "") (vulnerability.cvss_vector v)
  ∧ present_or_default finding "exploit_maturity" (PStr "")
      (vulnerability.exploit_maturity v)
  ∧ present_or_default finding "affected_component" (PStr "")
      (vulnerability.affected_component v)
  ∧ present_or_default finding "affected_version" (PStr "")
      (vulnerability.affected_version v)
  ∧ present_or_default finding "business_impact" (PStr "")
      (vulnerability.business_impact v)
  ∧ present_or_default finding "data_classification" (PStr "")
      (vulnerability.data_classification v)
  ∧ present_or_default finding "system_exposure" (PStr "")
      (vulnerability.system_exposure v)
  ∧ present_or_default finding "metadata" (PDict ∅) (vulnerability.metadata v)
  ∧ vulnerability.scan_id v = scan_id
  ∧ vulnerability.asset_id v = asset_id
  ∧ vulnerability.status v = "open"
  ∧ vulnerability.created_at v = now
  ∧ vulnerability.updated_at v = now
  ∧ vulnerabilities db' = (vulnerabilities db ++ [v])%list
  ∧ scans db' = scans db
  ∧ ml_models db' = ml_models db.
Proof.
  cbn. unfold present_or_default, dict_get.
  repeat match goal with |- _ ∧ _ => split end;
    match goal with
    | |- context [finding !! ?k] => destruct (finding !! k); cbn; auto
    | _ => reflexivity
    end.
Qed.

End normalizer.

(** ** Priority classes *)

Section priority.

Import ml_service.
#[local] Open Scope Q_scope.

Lemma Qle_bool_false (x y : Q) : Qle_bool x y = false ↔ y < x.
Proof.
  split.
  - intros H. apply Qnot_le_lt. intros Hle. apply Qle_bool_iff in Hle. congruence.
  - intros H. destruct (Qle_bool x y) eqn:E; [|done].
    apply Qle_bool_iff in E. apply Qlt_not_le in H. contradiction.
Qed.

Lemma get_priority_class_examples :
  get_priority_class 0.85 = "critical" ∧ get_priority_class 0.65 = "high"
  ∧ get_priority_class 0.45 = "medium" ∧ get_priority_class 0.1 = "low".
Proof. repeat split. Qed.

(** C9: [get_priority_class] answers "critical" exactly from 0.8 upwards,
    "high" exactly on [0.6, 0.8), "medium" exactly on [0.4, 0.6) and "low"
    exactly below 0.4; the three thresholds belong to the class above. *)
Theorem get_priority_class_thresholds (score : Q) :
  (get_priority_class score = "critical" ↔ 0.8 <= score)
  ∧ (get_priority_class score = "high" ↔ 0.6 <= score ∧ score < 0.8)
  ∧ (get_priority_class score = "medium" ↔ 0.4 <= score ∧ score < 0.6)
  ∧ (get_priority_class score = "low" ↔ score < 0.4)
  ∧ get_priority_class 0.8 = "critical"
  ∧ get_priority_class 0.6 = "high"
  ∧ get_priority_class 0.4 = "medium".
Proof.
  unfold get_priority_class.
  destruct (Qle_bool 0.8 score) eqn:E8;
    [apply Qle_bool_iff in E8 | apply Qle_bool_false in E8];
  (destruct (Qle_bool 0.6 score) eqn:E6;
    [apply Qle_bool_iff in E6 | apply Qle_bool_false in E6]);
  (destruct (Qle_bool 0.4 score) eqn:E4;
    [apply Qle_bool_iff in E4 | apply Qle_bool_false in E4]);
  repeat split; try discriminate; try reflexivity; try assumption;
    intros; try lra.
Qed.

End priority.

(** ** Feature extraction *)

Section features.

Import ml_service.

(** What a successful extraction looks like. *)
Lemma _get_vulnerability_features_Ok rt (d : gmap string pyval) fs :
  _get_vulnerability_features rt d = Ok fs →
  ∃ e p sev mat imp cls exp,
    int rt (dict_get d "exploit_available" (PBool false)) = Ok e
    ∧ int rt (dict_get d "patch_available" (PBool false)) = Ok p
    ∧ lower (dict_get d "severity" (PStr "low")) = Ok sev
    ∧ lower (dict_get d "exploit_maturity" (PStr "")) = Ok mat
    ∧ lower (dict_get d "business_impact" (PStr "")) = Ok imp
    ∧ lower (dict_get d "data_classification" (PStr "")) = Ok cls
    ∧ lower (dict_get d "system_exposure" (PStr "")) = Ok exp
    ∧ fs = [ ("cvss_score", dict_get d "cvss_score" (PFloat 0.0));
             ("exploit_available", PInt e);
             ("patch_available", PInt p);
             ("severity_critical", indicator sev "critical");
             ("severity_high", indicator sev "high");
             ("severity_medium", indicator sev "medium");
             ("severity_low", indicator sev "low");
             ("exploit_maturity_high", indicator mat "high");
             ("exploit_maturity_functional", indicator mat "functional");
             ("exploit_maturity_poc", indicator mat "poc");
             ("exploit_maturity_unproven", indicator mat "unproven");
             ("business_impact_critical", indicator imp "critical");
             ("business_impact_high", indicator imp "high");
             ("business_impact_medium", indicator imp "medium");
             ("business_impact_low", indicator imp "low");
             ("data_classification_restricted", indicator cls "restricted");
             ("data_classification_confidential", indicator cls "confidential");
             ("data_classification_internal", indicator cls "internal");
             ("data_classification_public", indicator cls "public");
             ("system_exposure_internet", indicator exp "internet");
             ("system_exposure_intranet", indicator exp "intranet");
             ("system_exposure_internal", indicator exp "internal");
             ("system_exposure_isolated", indicator exp "isolated") ].
Proof.
  unfold _get_vulnerability_features, mbind, result_bind, mret, result_ret.
  bind_cases; intros H; try discriminate H.
  injection H as <-. do 7 eexists. repeat split; reflexivity.
Qed.

Lemma int_convertible_Ok rt v : int_convertible rt v → ∃ n, int rt v = Ok n.
Proof.
  destruct v; cbn; try (intros []; fail); eauto.
  intros [n Hn]. rewrite Hn. eauto.
Qed.

Lemma flag_converts rt (d : gmap string pyval) k :
  (∀ v, d !! k = Some v → int_convertible rt v) →
  ∃ n, int rt (dict_get d k (PBool false)) = Ok n
       ∧ (d !! k = None → n = 0%Z).
Proof.
  intros H. unfold dict_get. destruct (d !! k) as [v|] eqn:E; cbn.
  - destruct (int_convertible_Ok rt v (H v eq_refl)) as [n Hn].
    exists n. split; [done | discriminate].
  - eauto.
Qed.

Lemma category_lowers (d : gmap string pyval) k dflt :
  (∀ v, d !! k = Some v → is_str v) →
  ∃ s, lower (dict_get d k (PStr dflt)) = Ok s
       ∧ (d !! k = None → s = str_lower dflt).
Proof.
  intros H. unfold dict_get. destruct (d !! k) as [v|] eqn:E; cbn.
  - destruct (H v eq_refl) as [s ->]. exists (str_lower s). split; [done | discriminate].
  - eauto.
Qed.

Lemma int_Ok_convertible rt v n : int rt v = Ok n → int_convertible rt v.
Proof.
  destruct v; cbn; try done. destruct (parse_int rt s); [eauto | discriminate].
Qed.

Lemma lower_Ok_is_str v s : lower v = Ok s → is_str v.
Proof. destruct v; try discriminate. intros _. by eexists. Qed.

Lemma flag_converted rt (d : gmap string pyval) k n v :
  int rt (dict_get d k (PBool false)) = Ok n → d !! k = Some v → int_convertible rt v.
Proof. unfold dict_get. intros H Hv. rewrite Hv in H. by eapply int_Ok_convertible. Qed.

Lemma category_lowered (d : gmap string pyval) k dflt s v :
  lower (dict_get d k (PStr dflt)) = Ok s → d !! k = Some v → is_str v.
Proof. unfold dict_get. intros H Hv. rewrite Hv in H. by eapply lower_Ok_is_str. Qed.

(** An extraction that returns has met no field of the wrong type. *)
Lemma _get_vulnerability_features_well_typed rt (d : gmap string pyval) fs :
  _get_vulnerability_features rt d = Ok fs → well_typed rt d.
Proof.
  intros H. apply _get_vulnerability_features_Ok in H
    as (e & p & sev & mat & imp & cls & exp & He & Hp & Hsev & Hmat & Himp & Hcls
        & Hexp & _).
  split; intros k v Hk Hv.
  - apply elem_of_cons in Hk as [-> | Hk]; [exact (flag_converted _ _ _ _ _ He Hv)|].
    apply elem_of_cons in Hk as [-> | Hk]; [exact (flag_converted _ _ _ _ _ Hp Hv)|].
    by apply elem_of_nil in Hk.
  - apply elem_of_cons in Hk as [-> | Hk]; [exact (category_lowered _ _ _ _ _ Hsev Hv)|].
    apply elem_of_cons in Hk as [-> | Hk]; [exact (category_lowered _ _ _ _ _ Hmat Hv)|].
    apply elem_of_cons in Hk as [-> | Hk]; [exact (category_lowered _ _ _ _ _ Himp Hv)|].
    apply elem_of_cons in Hk as [-> | Hk]; [exact (category_lowered _ _ _ _ _ Hcls Hv)|].
    apply elem_of_cons in Hk as [-> | Hk]; [exact (category_lowered _ _ _ _ _ Hexp Hv)|].
    by apply elem_of_nil in Hk.
Qed.

Ltac in_list :=
  repeat first [apply list_elem_of_here | apply list_elem_of_further].

(** C10 (as amended): the extractor's result, whenever it returns one, has
    the 23 keys of [feature_names], in that order, whichever keys the input
    holds.  It returns one exactly for the inputs whose present fields have
    the expected types, and raises for every other input.  An absent field
    contributes 0 (CVSS 0.0, a flag 0, every indicator of the absent
    category 0), except that an absent severity counts as "low" and sets
    [severity_low] to 1. *)
Theorem get_vulnerability_features_fixed_keys rt (d : gmap string pyval) :
  length feature_names = 23
  ∧ NoDup feature_names
  ∧ (∀ fs, _get_vulnerability_features rt d = Ok fs → fs.*1 = feature_names)
  ∧ ((∃ fs, _get_vulnerability_features rt d = Ok fs) ↔ well_typed rt d)
  ∧ (¬ well_typed rt d → ∃ e, _get_vulnerability_features rt d = Raise e)
  ∧ (well_typed rt d →
     ∃ fs, _get_vulnerability_features rt d = Ok fs
       ∧ (d !! "cvss_score" = None → ("cvss_score", PFloat 0.0) ∈ fs)
       ∧ (d !! "exploit_available" = None → ("exploit_available", PInt 0) ∈ fs)
       ∧ (d !! "patch_available" = None → ("patch_available", PInt 0) ∈ fs)
       ∧ (d !! "severity" = None →
            ("severity_critical", PInt 0) ∈ fs ∧ ("severity_high", PInt 0) ∈ fs
            ∧ ("severity_medium", PInt 0) ∈ fs ∧ ("severity_low", PInt 1) ∈ fs)
       ∧ (d !! "exploit_maturity" = None →
            ("exploit_maturity_high", PInt 0) ∈ fs
            ∧ ("exploit_maturity_functional", PInt 0) ∈ fs
            ∧ ("exploit_maturity_poc", PInt 0) ∈ fs
            ∧ ("exploit_maturity_unproven", PInt 0) ∈ fs)
       ∧ (d !! "business_impact" = None →
            ("business_impact_critical", PInt 0) ∈ fs
            ∧ ("business_impact_high", PInt 0) ∈ fs
            ∧ ("business_impact_medium", PInt 0) ∈ fs
            ∧ ("business_impact_low", PInt 0) ∈ fs)
       ∧ (d !! "data_classification" = None →
            ("data_classification_restricted", PInt 0) ∈ fs
            ∧ ("data_classification_confidential", PInt 0) ∈ fs
            ∧ ("data_classification_internal", PInt 0) ∈ fs
            ∧ ("data_classification_public", PInt 0) ∈ fs)
       ∧ (d !! "system_exposure" = None →
            ("system_exposure_internet", PInt 0) ∈ fs
            ∧ ("system_exposure_intranet", PInt 0) ∈ fs
            ∧ ("system_exposure_internal", PInt 0) ∈ fs
            ∧ ("system_exposure_isolated", PInt 0) ∈ fs)).
Proof.
  split; [reflexivity|]. split; [by apply (bool_decide_unpack _); vm_compute|].
  split.
  - intros fs H. apply _get_vulnerability_features_Ok in H.
    destruct H as (e & p & sev & mat & imp & cls & exp & _ & _ & _ & _ & _ & _ & _ & ->).
    reflexivity.
  - assert (Hreturns : well_typed rt d →
              ∃ fs, _get_vulnerability_features rt d = Ok fs).
    { intros [Hflags Hcats].
      destruct (flag_converts rt d "exploit_available") as (e & He & _);
        [intros v; apply Hflags; in_list|].
      destruct (flag_converts rt d "patch_available") as (p & Hp & _);
        [intros v; apply Hflags; in_list|].
      destruct (category_lowers d "severity" "low") as (sev & Hsev & _);
        [intros v; apply Hcats; in_list|].
      destruct (category_lowers d "exploit_maturity" "") as (mat & Hmat & _);
        [intros v; apply Hcats; in_list|].
      destruct (category_lowers d "business_impact" "") as (imp & Himp & _);
        [intros v; apply Hcats; in_list|].
      destruct (category_lowers d "data_classification" "") as (cls & Hcls & _);
        [intros v; apply Hcats; in_list|].
      destruct (category_lowers d "system_exposure" "") as (exp & Hexp & _);
        [intros v; apply Hcats; in_list|].
      eexists.
      unfold _get_vulnerability_features, mbind, result_bind, mret, result_ret.
      rewrite He, Hp, Hsev, Hmat, Himp, Hcls, Hexp. cbn [Py.bind]. reflexivity. }
    split; [split; [intros [fs Hfs]; by eapply _get_vulnerability_features_well_typed
                   | exact Hreturns]|].
    split.
    { intros Hnot. destruct (_get_vulnerability_features rt d) as [fs|e] eqn:E;
        [|by eexists].
      destruct Hnot. by eapply _get_vulnerability_features_well_typed. }
    intros [Hflags Hcats].
    destruct (flag_converts rt d "exploit_available") as (e & He & He0);
      [intros v; apply Hflags; in_list|].
    destruct (flag_converts rt d "patch_available") as (p & Hp & Hp0);
      [intros v; apply Hflags; in_list|].
    destruct (category_lowers d "severity" "low") as (sev & Hsev & Hsev0);
      [intros v; apply Hcats; in_list|].
    destruct (category_lowers d "exploit_maturity" "") as (mat & Hmat & Hmat0);
      [intros v; apply Hcats; in_list|].
    destruct (category_lowers d "business_impact" "") as (imp & Himp & Himp0);
      [intros v; apply Hcats; in_list|].
    destruct (category_lowers d "data_classification" "") as (cls & Hcls & Hcls0);
      [intros v; apply Hcats; in_list|].
    destruct (category_lowers d "system_exposure" "") as (exp & Hexp & Hexp0);
      [intros v; apply Hcats; in_list|].
    eexists. split.
    { unfold _get_vulnerability_features, mbind, result_bind, mret, result_ret.
      rewrite He, Hp, Hsev, Hmat, Himp, Hcls, Hexp. cbn [Py.bind]. reflexivity. }
    repeat match goal with |- _ ∧ _ => split end; intros Habs;
      try rewrite (He0 Habs); try rewrite (Hp0 Habs); try rewrite (Hsev0 Habs);
      try rewrite (Hmat0 Habs); try rewrite (Himp0 Habs); try rewrite (Hcls0 Habs);
      try rewrite (Hexp0 Habs); unfold dict_get; try rewrite Habs; cbn;
      repeat match goal with |- _ ∧ _ => split end; in_list.
Qed.

Lemma get_vulnerability_features_fixed_keys_witness :
  ∃ fs, _get_vulnerability_features examples.strict_runtime
          examples.test_vulnerability_data = Ok fs
        ∧ fs.*1 = feature_names.
Proof.
  destruct (get_vulnerability_features_fixed_keys examples.strict_runtime
              examples.test_vulnerability_data) as (_ & _ & Hkeys & _ & _ & Hret).
  destruct Hret as (fs & Hfs & _).
  - split; intros k v Hk Hv; rewrite !elem_of_cons, elem_of_nil in Hk;
      repeat (destruct Hk as [-> | Hk];
              [vm_compute in Hv; injection Hv as <-;
               first [exact I | eexists; reflexivity] |]);
      contradiction.
  - exists fs. split; [exact Hfs | exact (Hkeys fs Hfs)].
Defined.

(** C10 as stated fails twice over: a severity that is present but not a
    string (JSON [null]) makes the extractor raise instead of returning
    the 23 keys, and an absent severity contributes [severity_low = 1],
    not 0. *)
Lemma get_vulnerability_features_counterexample :
  (¬ ∃ fs, _get_vulnerability_features examples.strict_runtime
             {["severity" := PNone]} = Ok fs)
  ∧ (∃ fs, _get_vulnerability_features examples.strict_runtime ∅ = Ok fs
           ∧ ("severity_low", PInt 1) ∈ fs
           ∧ ("severity_low", PInt 0) ∉ fs).
Proof.
  split.
  - intros [fs H]. vm_compute in H. discriminate H.
  - eexists. split; [vm_compute; reflexivity|]. split; [in_list|].
    rewrite !elem_of_cons, elem_of_nil. intros H.
    repeat (destruct H as [H | H]; [discriminate H|]). exact H.
Qed.

End features.

(** ** Model selection and prediction *)

Section selection.

Import ml_service.

Lemma trained_with_data_usable (row : Z * ml_model.MLModel) :
  trained_with_data row = true ↔ usable row.2.
Proof.
  unfold trained_with_data, usable.
  rewrite andb_true_iff, String.eqb_eq, bool_decide_eq_true. reflexivity.
Qed.

Lemma bytes_truthy_nonempty data :
  bytes_truthy data = true ↔ ∃ b bs, data = Some (b :: bs).
Proof.
  destruct data as [[|b bs]|]; cbn; split; try discriminate; eauto;
    intros (? & ? & ?); discriminate.
Qed.

Lemma order_by_updated_at_desc_limit_1_cons row rows :
  order_by_updated_at_desc_limit_1 (row :: rows) =
    match order_by_updated_at_desc_limit_1 rows with
    | Some b =>
        if (ml_model.updated_at b.2 <=? ml_model.updated_at row.2)%Z
        then Some row else Some b
    | None => Some row
    end.
Proof. reflexivity. Qed.

Lemma order_by_updated_at_desc_limit_1_None rows :
  order_by_updated_at_desc_limit_1 rows = None ↔ rows = [].
Proof.
  destruct rows as [|r rows]; [done|].
  rewrite order_by_updated_at_desc_limit_1_cons.
  destruct (order_by_updated_at_desc_limit_1 rows) as [b|];
    [case_match|]; split; intros; discriminate.
Qed.

Lemma order_by_updated_at_desc_limit_1_greatest rows found :
  order_by_updated_at_desc_limit_1 rows = Some found →
  found ∈ rows
  ∧ ∀ row, row ∈ rows →
           (ml_model.updated_at row.2 ≤ ml_model.updated_at found.2)%Z.
Proof.
  revert found. induction rows as [|r rows IH]; intros found; [done|].
  rewrite order_by_updated_at_desc_limit_1_cons.
  destruct (order_by_updated_at_desc_limit_1 rows) as [b|] eqn:Eb.
  - destruct (IH b eq_refl) as [Hin Hmax].
    destruct (ml_model.updated_at b.2 <=? ml_model.updated_at r.2)%Z eqn:Ecmp;
      intros [= <-].
    + apply Z.leb_le in Ecmp. split; [left|].
      intros row [-> | Hrow]%elem_of_cons; [lia|]. specialize (Hmax row Hrow). lia.
    + apply Z.leb_gt in Ecmp. split; [by right|].
      intros row [-> | Hrow]%elem_of_cons; [lia | by apply Hmax].
  - apply order_by_updated_at_desc_limit_1_None in Eb as ->.
    intros [= <-]. split; [left|].
    intros row [-> | Hrow]%elem_of_cons; [lia | by apply elem_of_nil in Hrow].
Qed.

Lemma usable_rows (db : Session) (row : Z * ml_model.MLModel) :
  row ∈ filter (λ row, trained_with_data row = true) (map_to_list (ml_models db))
  ↔ ml_models db !! row.1 = Some row.2 ∧ usable row.2.
Proof.
  rewrite list_elem_of_filter, trained_with_data_usable, elem_of_map_to_list'. tauto.
Qed.

(** The fall-back query: the latest usable row, or nothing when no row is
    usable. *)
Lemma fallback_query (db : Session) :
  match order_by_updated_at_desc_limit_1
          (filter (λ row, trained_with_data row = true) (map_to_list (ml_models db))) with
  | Some found => latest_usable db found
  | None => ¬ some_usable db
  end.
Proof.
  destruct (order_by_updated_at_desc_limit_1 _) as [found|] eqn:E.
  - apply order_by_updated_at_desc_limit_1_greatest in E as [Hin Hmax].
    apply usable_rows in Hin as [Hrow Huse]. split; [done|]. split; [done|].
    intros i m Him Hm. apply (Hmax (i, m)). by apply usable_rows.
  - apply order_by_updated_at_desc_limit_1_None in E.
    intros (i & m & Him & Hm).
    assert (Hin : (i, m) ∈ filter (λ row, trained_with_data row = true)
                           (map_to_list (ml_models db))) by by apply usable_rows.
    rewrite E in Hin. by apply elem_of_nil in Hin.
Qed.

Lemma _get_latest_model_explicit db model_id i m :
  explicit_choice db model_id i m → _get_latest_model db model_id = Some (i, m).
Proof.
  intros (-> & Hi & Hm & Hst & Hdata). unfold _get_latest_model, get_model.
  apply Z.eqb_neq in Hi. rewrite Hi, Hm. cbn [negb].
  apply String.eqb_eq in Hst. apply bytes_truthy_nonempty in Hdata.
  by rewrite Hst, Hdata.
Qed.

Lemma _get_latest_model_fallback db model_id :
  (¬ ∃ i m, explicit_choice db model_id i m) →
  _get_latest_model db model_id =
    order_by_updated_at_desc_limit_1
      (filter (λ row, trained_with_data row = true) (map_to_list (ml_models db))).
Proof.
  intros Hno. unfold _get_latest_model, get_model.
  destruct model_id as [i|]; [|done].
  destruct (i =? 0)%Z eqn:Hi; [done|]. cbn [negb].
  destruct (ml_models db !! i) as [m|] eqn:Hm; [|done].
  destruct (String.eqb _ _ && bytes_truthy _) eqn:E; [|done].
  exfalso. apply Hno. exists i, m.
  apply andb_true_iff in E as [Hst Hdata].
  apply String.eqb_eq in Hst. apply bytes_truthy_nonempty in Hdata.
  apply Z.eqb_neq in Hi. done.
Qed.

Lemma _get_latest_model_usable db model_id found :
  _get_latest_model db model_id = Some found →
  ml_models db !! found.1 = Some found.2 ∧ usable found.2.
Proof.
  intros H.
  unfold _get_latest_model, get_model in H.
  set (q := order_by_updated_at_desc_limit_1 _) in H.
  assert (Hq : q = Some found → ml_models db !! found.1 = Some found.2 ∧ usable found.2).
  { intros Hq. pose proof (fallback_query db) as Hf. fold q in Hf. rewrite Hq in Hf.
    destruct Hf as (? & ? & _). done. }
  destruct model_id as [i|]; [|by apply Hq].
  destruct (i =? 0)%Z; [by apply Hq|]. cbn [negb] in H.
  destruct (ml_models db !! i) as [m|] eqn:Hm; [|by apply Hq].
  destruct (String.eqb _ _ && bytes_truthy _) eqn:E; [|by apply Hq].
  injection H as <-. apply andb_true_iff in E as [Hst Hdata].
  apply String.eqb_eq in Hst. apply bytes_truthy_nonempty in Hdata as (b & bs & Hd).
  split; [done|]. split; [done|]. cbn. rewrite Hd. eauto.
Qed.

Lemma _get_latest_model_None db requested :
  _get_latest_model db requested = None ↔ ¬ some_usable db.
Proof.
  split.
  - intros H. pose proof (fallback_query db) as Hq.
    rewrite _get_latest_model_fallback in H.
    + by rewrite H in Hq.
    + intros (i & m & Hc). by rewrite (_get_latest_model_explicit _ _ _ _ Hc) in H.
  - intros Hno. destruct (_get_latest_model db requested) as [found|] eqn:E; [|done].
    apply _get_latest_model_usable in E as [Hrow Huse].
    exfalso. apply Hno. by exists found.1, found.2.
Qed.

(** [train_model] keeps the table one the service has written: the
    payload it stores is the pickle of the fitted estimator. *)
Lemma train_model_written sk now db model_id params :
  (∀ model payload, pickle_dumps sk model = Ok payload → payload ≠ []) →
  written_by_service db →
  written_by_service (train_model sk now db model_id params).1.
Proof.
  intros Hpickle Hdb. unfold train_model, get_model.
  destruct (ml_models db !! model_id) as [m|] eqn:Hm; [|exact Hdb].
  destruct (Hdb model_id m Hm) as [Hid Hdata].
  destruct (fit_steps sk _ params) as [[[[h me] fi] payload]|e] eqn:Hfit;
    cbn [fst]; intros i m' Hi; cbn in Hi;
    (destruct (decide (i = model_id)) as [->|Hne];
     [rewrite lookup_insert_eq in Hi; injection Hi as <-
     |rewrite !lookup_insert_ne in Hi by done; by eapply Hdb]);
    (split; [done|]); cbn; [|done].
  unfold fit_steps, mbind, result_bind, mret, result_ret in Hfit.
  destruct (_generate_synthetic_training_data sk) as [X y].
  destruct (train_test_split sk X y) as [[[[X_train X_test] y_train] y_test]|];
    cbn [Py.bind] in Hfit; [|discriminate Hfit].
  bind_cases_in Hfit. injection Hfit as <- <- <- <-.
  intros [= ->]. by eapply Hpickle.
Qed.



End selection.

(** ** Training *)

Section training.

Import ml_service.

(** A run whose steps all succeed stores the new payload and ends
    [trained]. *)
Lemma train_model_success sk now db model_id params m hyperparameters metrics
    importance payload :
  ml_models db !! model_id = Some m →
  fit_steps sk (ml_model.set_status "training" now m) params
    = Ok (hyperparameters, metrics, importance, payload) →
  ∃ m', train_model sk now db model_id params
          = (with_ml_models <[model_id := m']>
               (with_ml_models <[model_id := ml_model.set_status "training" now m]> db),
             Some m')
        ∧ ml_model.status m' = "trained"
        ∧ ml_model.model_data m' = Some payload.
Proof.
  intros Hm Hfit. unfold train_model, get_model. rewrite Hm, Hfit.
  eexists. split; [reflexivity|]. split; reflexivity.
Qed.

(** C6: when a step of the fit raises, [train_model] returns nothing, the
    model's record ends with status [error], and its payload is the one it
    had before the run. *)
Theorem train_model_failure_keeps_payload sk now db model_id params m e :
  ml_models db !! model_id = Some m →
  fit_steps sk (ml_model.set_status "training" now m) params = Raise e →
  (train_model sk now db model_id params).2 = None
  ∧ ∃ m', ml_models (train_model sk now db model_id params).1 !! model_id = Some m'
          ∧ ml_model.status m' = "error"
          ∧ ml_model.model_data m' = ml_model.model_data m.
Proof.
  intros Hm Hfit. unfold train_model, get_model. rewrite Hm, Hfit. cbn.
  split; [reflexivity|]. eexists. split; [apply lookup_insert_eq|].
  split; reflexivity.
Qed.

Lemma train_model_failure_keeps_payload_witness :
  (train_model examples.failing_sklearn 30 examples.model_session 2 ∅).2 = None
  ∧ ∃ m', ml_models (train_model examples.failing_sklearn 30
                       examples.model_session 2 ∅).1 !! 2%Z = Some m'
          ∧ ml_model.status m' = "error"
          ∧ ml_model.model_data m' = Some [Byte.x80; Byte.x04].
Proof.
  apply (train_model_failure_keeps_payload examples.failing_sklearn 30
           examples.model_session 2 ∅ examples.trained_model
           (ValueError "Unknown label type: continuous")); reflexivity.
Defined.

End training.

(** ** Scanner adapters *)

Section adapters.

Import scan_tasks.

Lemma run_trivy_scan_raise env scan e :
  run_trivy_scan_body env scan = Raise e →
  ∃ message, run_trivy_scan env scan = failed_result message ∧ message ≠ "".
Proof.
  intros H. unfold run_trivy_scan. rewrite H. cbn [try_except].
  destruct e; eexists; (split; [reflexivity | discriminate]).
Qed.

Lemma run_dependency_check_scan_raise env scan_id scan e :
  run_dependency_check_scan_body env scan_id scan = Raise e →
  ∃ message,
    run_dependency_check_scan env scan_id scan = failed_result message ∧ message ≠ "".
Proof.
  intros H. unfold run_dependency_check_scan. rewrite H. cbn [try_except].
  destruct e; eexists; (split; [reflexivity | discriminate]).
Qed.

Lemma trivy_failure_raises env scan :
  trivy_failure env scan → ∃ e, run_trivy_scan_body env scan = Raise e.
Proof.
  unfold run_trivy_scan_body, mbind, result_bind.
  intros [stderr H | msg H | stdout msg H Hjson]; rewrite H; cbn [Py.bind]; eauto.
  rewrite Hjson. cbn [Py.bind]. eauto.
Qed.

Lemma dependency_check_failure_raises env scan_id scan :
  dependency_check_failure env scan_id scan →
  ∃ e, run_dependency_check_scan_body env scan_id scan = Raise e.
Proof.
  unfold run_dependency_check_scan_body, mbind, result_bind.
  intros [stderr H | msg H | stdout msg H Hopen | stdout text msg H Hopen Hjson];
    rewrite H; cbn [Py.bind]; eauto; rewrite Hopen; cbn [Py.bind]; eauto.
  rewrite Hjson. cbn [Py.bind]. eauto.
Qed.

Lemma run_trivy_scan_returns env scan :
  status (run_trivy_scan env scan) = "success"
  ∨ ∃ message, run_trivy_scan env scan = failed_result message.
Proof.
  destruct (run_trivy_scan_body env scan) as [r|e] eqn:E.
  - left. unfold run_trivy_scan. rewrite E. cbn [try_except].
    unfold run_trivy_scan_body, mbind, result_bind, mret, result_ret in E.
    bind_cases_in E. by injection E as <-.
  - right. destruct (run_trivy_scan_raise env scan e E) as (message & H & _). eauto.
Qed.

Lemma run_dependency_check_scan_returns env scan_id scan :
  status (run_dependency_check_scan env scan_id scan) = "success"
  ∨ ∃ message, run_dependency_check_scan env scan_id scan = failed_result message.
Proof.
  destruct (run_dependency_check_scan_body env scan_id scan) as [r|e] eqn:E.
  - left. unfold run_dependency_check_scan. rewrite E. cbn [try_except].
    unfold run_dependency_check_scan_body, mbind, result_bind, mret, result_ret in E.
    bind_cases_in E. by injection E as <-.
  - right. destruct (run_dependency_check_scan_raise env scan_id scan e E)
      as (message & H & _). eauto.
Qed.

(** C7: neither adapter lets an exception out.  Whatever the [try] block
    raises, and in particular when the scanner exits non-zero, cannot be
    run, leaves no readable report or prints something that is not JSON,
    the adapter returns the dictionary with status "failed", a message
    that is not empty and no findings; a non-zero exit is reported with the
    scanner's standard error.  Every call therefore returns a dictionary,
    of a successful scan or of a failed one; the OpenVAS placeholder always
    returns the former. *)
Theorem adapters_capture_failures env scan_id scan :
  (status (run_trivy_scan env scan) = "success"
   ∨ ∃ message, run_trivy_scan env scan = failed_result message)
  ∧ (status (run_dependency_check_scan env scan_id scan) = "success"
     ∨ ∃ message, run_dependency_check_scan env scan_id scan = failed_result message)
  ∧ status (run_openvas_scan scan) = "success"
  ∧
  (∀ e, run_trivy_scan_body env scan = Raise e →
        ∃ message, run_trivy_scan env scan = failed_result message ∧ message ≠ "")
  ∧ (∀ e, run_dependency_check_scan_body env scan_id scan = Raise e →
          ∃ message, run_dependency_check_scan env scan_id scan = failed_result message
                     ∧ message ≠ "")
  ∧ (trivy_failure env scan →
       ∃ message, run_trivy_scan env scan = failed_result message ∧ message ≠ "")
  ∧ (dependency_check_failure env scan_id scan →
       ∃ message, run_dependency_check_scan env scan_id scan = failed_result message
                  ∧ message ≠ "")
  ∧ (∀ stderr,
       subprocess_run env (trivy_cmd env scan) = Raise (CalledProcessError stderr) →
       run_trivy_scan env scan = failed_result ("Trivy scan failed: " +:+ stderr))
  ∧ (∀ stderr,
       subprocess_run env (dependency_check_cmd env scan_id scan)
         = Raise (CalledProcessError stderr) →
       run_dependency_check_scan env scan_id scan
         = failed_result ("Dependency-Check scan failed: " +:+ stderr)).
Proof.
  split; [apply run_trivy_scan_returns|].
  split; [apply run_dependency_check_scan_returns|].
  split; [reflexivity|].
  split; [apply run_trivy_scan_raise|].
  split; [apply run_dependency_check_scan_raise|].
  split; [intros [e He]%trivy_failure_raises; by eapply run_trivy_scan_raise|].
  split; [intros [e He]%dependency_check_failure_raises;
          by eapply run_dependency_check_scan_raise|].
  split; intros stderr H.
  - unfold run_trivy_scan, run_trivy_scan_body, mbind, result_bind. by rewrite H.
  - unfold run_dependency_check_scan, run_dependency_check_scan_body, mbind, result_bind.
    by rewrite H.
Qed.

Lemma adapters_capture_failures_witness :
  run_trivy_scan examples.broken_environment examples.trivy_scan
    = failed_result "Trivy scan failed: FATAL: image not found"
  ∧ ∃ message,
      run_dependency_check_scan examples.broken_environment 1 examples.dependency_scan
        = failed_result message ∧ message ≠ "".
Proof.
  destruct (adapters_capture_failures examples.broken_environment 1 examples.trivy_scan)
    as (_ & _ & _ & _ & _ & _ & _ & Hexit & _).
  destruct (adapters_capture_failures examples.broken_environment 1
              examples.dependency_scan) as (_ & _ & _ & _ & _ & _ & Hfail & _).
  split.
  - apply Hexit. reflexivity.
  - apply Hfail. eapply dependency_check_nonzero_exit. reflexivity.
Defined.

End adapters.

(** ** The scan task *)

Section task.

Import scan_service scan_tasks.

Lemma for_each_Forall {A B} (f : A → result B) (P : B → Prop) l bs :
  (∀ a b, f a = Ok b → P b) → for_each f l = Ok bs → Forall P bs.
Proof.
  intros Hf. revert bs. induction l as [|a l IH]; intros bs; cbn.
  - intros [= <-]. constructor.
  - destruct (f a) as [b|] eqn:Ea; [|discriminate].
    destruct (for_each f l) as [bs'|]; [|discriminate].
    intros [= <-]. constructor; eauto.
Qed.

Lemma trivy_finding_has_severity env result vuln finding :
  trivy_finding env result vuln = Ok finding → has_severity finding.
Proof.
  unfold trivy_finding, mbind, result_bind, mret, result_ret. intros H.
  bind_cases_in H. injection H as <-. eexists. by simplify_map_eq.
Qed.

Lemma dependency_check_finding_has_severity env dependency vuln finding :
  dependency_check_finding env dependency vuln = Ok finding → has_severity finding.
Proof.
  unfold dependency_check_finding, mbind, result_bind, mret, result_ret. intros H.
  bind_cases_in H. injection H as <-. eexists. by simplify_map_eq.
Qed.

Lemma run_trivy_scan_has_severity env scan :
  Forall has_severity (findings (run_trivy_scan env scan)).
Proof.
  unfold run_trivy_scan.
  destruct (run_trivy_scan_body env scan) as [r|e] eqn:E; cbn [try_except].
  - unfold run_trivy_scan_body, mbind, result_bind, mret, result_ret in E.
    bind_cases_in E. injection E as <-. cbn [findings].
    apply Forall_concat. eapply for_each_Forall; [|eassumption].
    cbn beta. intros result fs Hfs. bind_cases_in Hfs.
    eapply for_each_Forall; [|eassumption]. apply trivy_finding_has_severity.
  - destruct e; constructor.
Qed.

Lemma run_dependency_check_scan_has_severity env scan_id scan :
  Forall has_severity (findings (run_dependency_check_scan env scan_id scan)).
Proof.
  unfold run_dependency_check_scan.
  destruct (run_dependency_check_scan_body env scan_id scan) as [r|e] eqn:E;
    cbn [try_except].
  - unfold run_dependency_check_scan_body, mbind, result_bind, mret, result_ret in E.
    bind_cases_in E. injection E as <-. cbn [findings].
    apply Forall_concat. eapply for_each_Forall; [|eassumption].
    cbn beta. intros dependency fs Hfs. bind_cases_in Hfs.
    eapply for_each_Forall; [|eassumption]. apply dependency_check_finding_has_severity.
  - destruct e; constructor.
Qed.

Lemma run_openvas_scan_has_severity scan :
  Forall has_severity (findings (run_openvas_scan scan)).
Proof. repeat constructor; eexists; by simplify_map_eq. Qed.

Lemma create_vulnerability_from_finding_record now db scan_id asset_id finding :
  create_vulnerability_from_finding now db scan_id asset_id finding
  = (with_vulnerabilities (λ t, (t ++ [record_of now scan_id asset_id finding])%list) db,
     record_of now scan_id asset_id finding).
Proof. reflexivity. Qed.

Lemma process_scan_findings_appends now db scan_id scan fs :
  scans db !! scan_id = Some scan →
  scans (process_scan_findings now db scan_id fs) = scans db
  ∧ vulnerabilities (process_scan_findings now db scan_id fs)
    = (vulnerabilities db
       ++ (record_of now scan_id (scan.asset_id scan) <$> fs))%list.
Proof.
  intros Hs. unfold process_scan_findings. rewrite Hs. clear Hs.
  revert db. induction fs as [|f fs IH]; intros db; cbn [foldl fmap list_fmap].
  - by rewrite app_nil_r.
  - rewrite create_vulnerability_from_finding_record. cbn [fst].
    destruct (IH (with_vulnerabilities
                    (λ t, (t ++ [record_of now scan_id (scan.asset_id scan) f])%list) db))
      as [-> ->].
    cbn. by rewrite <- app_assoc.
Qed.

Lemma record_of_scan_id now scan_id asset_id fs :
  Forall (λ v, vulnerability.scan_id v = scan_id)
         (record_of now scan_id asset_id <$> fs).
Proof. apply Forall_fmap, Forall_true. reflexivity. Qed.

(** Counting over the findings and counting over the records agree when
    every finding carries its severity. *)
Lemma count_severity_records now scan_id asset_id level fs :
  Forall has_severity fs →
  count_severity level fs
  = count_records level (record_of now scan_id asset_id <$> fs).
Proof.
  unfold count_severity, count_records.
  induction 1 as [|f fs [s Hs] _ IH]; [reflexivity|].
  cbn [fmap list_fmap]. rewrite !filter_cons.
  assert (Hf : dict_get f "severity" PNone = PStr s) by (unfold dict_get; by rewrite Hs).
  assert (Hr : vulnerability.severity (record_of now scan_id asset_id f) = PStr s)
    by (cbn; unfold dict_get; by rewrite Hs).
  rewrite Hf, Hr. cbn [eq_str].
  repeat case_decide; cbn [length]; congruence.
Qed.

Lemma eq_str_levels v :
  ((if eq_str v "critical" then 1 else 0) + (if eq_str v "high" then 1 else 0)
   + (if eq_str v "medium" then 1 else 0) + (if eq_str v "low" then 1 else 0) ≤ 1)%nat.
Proof.
  destruct v; cbn; try lia.
  destruct (String.eqb s "critical") eqn:E1;
    [apply String.eqb_eq in E1 as ->; cbn; lia|].
  destruct (String.eqb s "high") eqn:E2;
    [apply String.eqb_eq in E2 as ->; cbn; lia|].
  destruct (String.eqb s "medium") eqn:E3;
    [apply String.eqb_eq in E3 as ->; cbn; lia|].
  destruct (String.eqb s "low"); lia.
Qed.

Lemma count_records_cons level v records :
  count_records level (v :: records)
  = ((if eq_str (vulnerability.severity v) level then 1 else 0)
     + count_records level records)%nat.
Proof.
  unfold count_records. rewrite filter_cons.
  destruct (eq_str (vulnerability.severity v) level) eqn:E; case_decide; try done.
Qed.

(** A record falls into at most one of the four severity classes. *)
Lemma count_records_at_most records :
  (count_records "critical" records + count_records "high" records
   + count_records "medium" records + count_records "low" records
   ≤ length records)%nat.
Proof.
  induction records as [|v records IH]; [cbn; lia|].
  rewrite !count_records_cons. cbn [length].
  pose proof (eq_str_levels (vulnerability.severity v)). lia.
Qed.

Lemma count_records_exact records :
  Forall known_severity records →
  (count_records "critical" records + count_records "high" records
   + count_records "medium" records + count_records "low" records)%nat
  = length records.
Proof.
  induction 1 as [|v records (level & Hlevel & Hv) _ IH]; [reflexivity|].
  rewrite !count_records_cons. cbn [length]. rewrite Hv.
  unfold severity_levels in Hlevel. rewrite !elem_of_cons, elem_of_nil in Hlevel.
  destruct Hlevel as [-> | [-> | [-> | [-> | []]]]]; cbn; lia.
Qed.

Lemma update_scan_status_found now db scan_id status message vc cc hc mc lc scan :
  scans db !! scan_id = Some scan →
  ∃ s', (update_scan_status now db scan_id status message vc cc hc mc lc).1
        = with_scans <[scan_id := s']> db
        ∧ scan.status s' = status
        ∧ scan.vulnerabilities_count s' = default (scan.vulnerabilities_count scan) vc
        ∧ scan.critical_count s' = default (scan.critical_count scan) cc
        ∧ scan.high_count s' = default (scan.high_count scan) hc
        ∧ scan.medium_count s' = default (scan.medium_count scan) mc
        ∧ scan.low_count s' = default (scan.low_count scan) lc.
Proof.
  intros Hs. unfold update_scan_status, get_scan. rewrite Hs. cbn [fst].
  eexists. split; [reflexivity|].
  destruct (String.eqb status "completed"), vc, cc, hc, mc, lc; cbn; auto 10.
Qed.

Lemma lookup_with_scans_insert db scan_id (s : scan.Scan) :
  scans (with_scans <[scan_id := s]> db) !! scan_id = Some s.
Proof. cbn. apply lookup_insert_eq. Qed.

(** After the [except] clause the scan is [failed]. *)
Lemma run_scan_task_except_failed env now db scan_id invoked e scan s' :
  scans db !! scan_id = Some scan →
  scans (db_after (run_scan_task_except env now db scan_id invoked e)) !! scan_id
    = Some s' →
  scan.status s' = "failed".
Proof.
  intros Hs. unfold run_scan_task_except. cbn [db_after].
  destruct (update_scan_status_found now db scan_id "failed"
              (Some (str_of_exn e)) None None None None None scan Hs)
    as (s1 & -> & Hst & _).
  rewrite lookup_with_scans_insert. by intros [= <-].
Qed.

(** When the task leaves the scan [completed], the records it appended are
    those of the adapter's findings and the stored counts are theirs. *)
Lemma process_results_completed env now db scan_id running scan adapter results s' :
  scans db !! scan_id = Some running →
  Forall has_severity (findings results) →
  scans (db_after (process_results env now db scan_id scan adapter results)) !! scan_id
    = Some s' →
  scan.status s' = "completed" →
  let created := record_of now scan_id (scan.asset_id running) <$> findings results in
  vulnerabilities (db_after (process_results env now db scan_id scan adapter results))
    = (vulnerabilities db ++ created)%list
  ∧ scan.vulnerabilities_count s' = length created
  ∧ scan.critical_count s' = count_records "critical" created
  ∧ scan.high_count s' = count_records "high" created
  ∧ scan.medium_count s' = count_records "medium" created
  ∧ scan.low_count s' = count_records "low" created.
Proof.
  intros Hs Hsev. unfold process_results.
  destruct (String.eqb (status results) "success").
  - destruct (process_scan_findings_appends now db scan_id running (findings results) Hs)
      as [Hscans Hvulns].
    assert (Hs1 : scans (process_scan_findings now db scan_id (findings results))
                    !! scan_id = Some running) by by rewrite Hscans.
    destruct (update_scan_status_found now _ scan_id "completed"
                (Some ("Scan completed successfully with "
                       +:+ pretty (length (findings results)) +:+ " findings"))
                (Some (length (findings results)))
                (Some (count_severity "critical" (findings results)))
                (Some (count_severity "high" (findings results)))
                (Some (count_severity "medium" (findings results)))
                (Some (count_severity "low" (findings results)))
                running Hs1)
      as (s2 & -> & Hst & Hvc & Hcc & Hhc & Hmc & Hlc).
    destruct (send_notification _ _ _ _).
    + cbn [db_after]. rewrite lookup_with_scans_insert. intros [= <-] _. cbn zeta.
      rewrite Hvc, Hcc, Hhc, Hmc, Hlc. cbn [default].
      rewrite length_fmap,
        <- !(count_severity_records now scan_id (scan.asset_id running)) by done.
      by rewrite <- Hvulns.
    + intros Hfail Hdone.
      eapply run_scan_task_except_failed in Hfail;
        [|apply lookup_with_scans_insert].
      congruence.
  - destruct (update_scan_status_found now db scan_id "failed"
                (Some (message results)) None None None None None running Hs)
      as (s2 & -> & Hst & _).
    destruct (send_notification _ _ _ _).
    + cbn [db_after]. rewrite lookup_with_scans_insert. intros [= <-]. congruence.
    + intros Hfail Hdone.
      eapply run_scan_task_except_failed in Hfail;
        [|apply lookup_with_scans_insert].
      congruence.
Qed.

Lemma filter_all {A} (P : A → Prop) `{∀ x, Decision (P x)} (l : list A) :
  Forall P l → filter P l = l.
Proof.
  induction 1 as [|x l Hx _ IH]; [reflexivity|].
  rewrite filter_cons_True by done. by rewrite IH.
Qed.

(** C2 (as amended): when the task leaves a scan [completed], the records
    it appended to the vulnerability table all belong to that scan, their
    number is the stored [vulnerabilities_count], and the stored critical,
    high, medium and low counts are the numbers of those records of each
    severity.  The four counts add up to at most the total, and to the
    total when every record's severity is one of the four levels.  When
    the table held no record of the scan before the run, the appended
    records are all the records of the scan. *)
Theorem run_scan_task_counts env now db scan_id s' :
  scans (db_after (run_scan_task env now db scan_id)) !! scan_id = Some s' →
  scan.status s' = "completed" →
  ∃ created,
    vulnerabilities (db_after (run_scan_task env now db scan_id))
      = (vulnerabilities db ++ created)%list
    ∧ Forall (λ v, vulnerability.scan_id v = scan_id) created
    ∧ scan.vulnerabilities_count s' = length created
    ∧ scan.critical_count s' = count_records "critical" created
    ∧ scan.high_count s' = count_records "high" created
    ∧ scan.medium_count s' = count_records "medium" created
    ∧ scan.low_count s' = count_records "low" created
    ∧ (scan.critical_count s' + scan.high_count s' + scan.medium_count s'
       + scan.low_count s' ≤ scan.vulnerabilities_count s')%nat
    ∧ (Forall known_severity created →
       (scan.critical_count s' + scan.high_count s' + scan.medium_count s'
        + scan.low_count s')%nat = scan.vulnerabilities_count s')
    ∧ (filter (λ v, vulnerability.scan_id v = scan_id) (vulnerabilities db) = [] →
       filter (λ v, vulnerability.scan_id v = scan_id)
         (vulnerabilities (db_after (run_scan_task env now db scan_id))) = created).
Proof.
  unfold run_scan_task. destruct (scans db !! scan_id) as [scan|] eqn:Hs.
  - set (running := scan.set_updated_at now
                      (scan.set_started_at (Some now) (scan.set_status "running" scan))).
    set (db1 := with_scans <[scan_id := running]> db).
    assert (Hs1 : scans db1 !! scan_id = Some running)
      by apply lookup_with_scans_insert.
    assert (Hcounts : ∀ adapter results,
      Forall has_severity (findings results) →
      scans (db_after (process_results env now db1 scan_id running adapter results))
        !! scan_id = Some s' →
      scan.status s' = "completed" →
      ∃ created,
        vulnerabilities (db_after (process_results env now db1 scan_id running
                                     adapter results))
          = (vulnerabilities db ++ created)%list
        ∧ Forall (λ v, vulnerability.scan_id v = scan_id) created
        ∧ scan.vulnerabilities_count s' = length created
        ∧ scan.critical_count s' = count_records "critical" created
        ∧ scan.high_count s' = count_records "high" created
        ∧ scan.medium_count s' = count_records "medium" created
        ∧ scan.low_count s' = count_records "low" created
        ∧ (scan.critical_count s' + scan.high_count s' + scan.medium_count s'
           + scan.low_count s' ≤ scan.vulnerabilities_count s')%nat
        ∧ (Forall known_severity created →
           (scan.critical_count s' + scan.high_count s' + scan.medium_count s'
            + scan.low_count s')%nat = scan.vulnerabilities_count s')
        ∧ (filter (λ v, vulnerability.scan_id v = scan_id) (vulnerabilities db) = [] →
           filter (λ v, vulnerability.scan_id v = scan_id)
             (vulnerabilities (db_after (process_results env now db1 scan_id running
                                           adapter results))) = created)).
    { intros adapter results Hsev Hlook Hdone.
      destruct (process_results_completed env now db1 scan_id running running
                  adapter results s' Hs1 Hsev Hlook Hdone)
        as (Hv & Hvc & Hcc & Hhc & Hmc & Hlc).
      eexists. split; [exact Hv|]. split; [apply record_of_scan_id|].
      rewrite Hvc, Hcc, Hhc, Hmc, Hlc.
      split; [done|]. split; [done|]. split; [done|]. split; [done|]. split; [done|].
      split; [apply count_records_at_most|].
      split; [apply count_records_exact|].
      intros Hfresh. rewrite Hv, filter_app. change (vulnerabilities db1) with
        (vulnerabilities db). rewrite Hfresh. cbn [app].
      apply filter_all, record_of_scan_id. }
    destruct (String.eqb (scan.scanner_type running) "trivy");
      [apply Hcounts, run_trivy_scan_has_severity|].
    destruct (String.eqb (scan.scanner_type running) "openvas");
      [apply Hcounts, run_openvas_scan_has_severity|].
    destruct (String.eqb (scan.scanner_type running) "dependency-check");
      [apply Hcounts, run_dependency_check_scan_has_severity|].
    cbn [db_after].
    destruct (update_scan_status_found now db1 scan_id "failed"
                (Some ("Unsupported scanner type: " +:+ scan.scanner_type running))
                None None None None None running Hs1)
      as (s2 & -> & Hst & _).
    rewrite lookup_with_scans_insert. intros [= <-]. congruence.
  - cbn [db_after]. rewrite Hs. discriminate.
Qed.

Lemma run_scan_task_counts_witness :
  ∃ s' created,
    scans (db_after (run_scan_task examples.moderate_environment 200
                       (examples.session_with examples.openvas_scan) 1)) !! 1%Z = Some s'
    ∧ length created = 2
    ∧ scan.low_count s' = count_records "low" created
    ∧ scan.medium_count s' = count_records "medium" created.
Proof.
  pose (s' := default examples.openvas_scan
                (scans (db_after (run_scan_task examples.moderate_environment 200
                                    (examples.session_with examples.openvas_scan) 1))
                 !! 1%Z)).
  assert (Hs' : scans (db_after (run_scan_task examples.moderate_environment 200
                                   (examples.session_with examples.openvas_scan) 1))
                !! 1%Z = Some s') by (vm_compute; reflexivity).
  destruct (run_scan_task_counts examples.moderate_environment 200
              (examples.session_with examples.openvas_scan) 1 s' Hs')
    as (created & _ & _ & Hvc & _ & _ & Hmc & Hlc & _); [vm_compute; reflexivity|].
  exists s', created. split; [exact Hs'|]. split; [|split; [exact Hlc | exact Hmc]].
  rewrite <- Hvc. vm_compute. reflexivity.
Defined.

(** C2 as stated fails on a finding whose severity is none of the four
    levels: Dependency-Check rates a vulnerability MODERATE, the scan ends
    [completed] with one vulnerability and all four severity counts 0. *)
Lemma run_scan_task_counts_counterexample :
  ∃ s',
    scans (db_after (run_scan_task examples.moderate_environment 200
                       (examples.session_with examples.dependency_scan) 1)) !! 1%Z = Some s'
    ∧ scan.status s' = "completed"
    ∧ scan.vulnerabilities_count s' = 1
    ∧ (scan.critical_count s' + scan.high_count s' + scan.medium_count s'
       + scan.low_count s')%nat = 0
    ∧ (scan.critical_count s' + scan.high_count s' + scan.medium_count s'
       + scan.low_count s')%nat ≠ scan.vulnerabilities_count s'.
Proof.
  exists (default examples.dependency_scan
            (scans (db_after (run_scan_task examples.moderate_environment 200
                                (examples.session_with examples.dependency_scan) 1))
             !! 1%Z)).
  vm_compute. repeat split; discriminate.
Qed.

End task.

(** ** Confidence and recommended action *)

Section advice.

Import ml_service.
#[local] Open Scope Q_scope.



(** The recommended action is a function of the priority class alone, and
    a different one for each class: two scores are given the same action
    exactly when they fall into the same class, whatever the vulnerability
    data. *)
Theorem generate_recommended_action_by_class
    (score1 score2 : Q) (data1 data2 : gmap string pyval) :
  generate_recommended_action score1 data1 = generate_recommended_action score2 data2
  ↔ get_priority_class score1 = get_priority_class score2.
Proof.
  unfold generate_recommended_action, get_priority_class.
  destruct (Qle_bool 0.8 score1), (Qle_bool 0.6 score1), (Qle_bool 0.4 score1),
    (Qle_bool 0.8 score2), (Qle_bool 0.6 score2), (Qle_bool 0.4 score2);
    cbn; split; intros H; first [reflexivity | discriminate H].
Qed.

End advice.

(** ** Request validation *)

Section validation.

Import schemas scan_tasks.

Lemma ascii_lower_idemp c : ascii_lower (ascii_lower c) = ascii_lower c.
Proof. destruct c as [[] [] [] [] [] [] [] []]; reflexivity. Qed.

Lemma str_lower_idemp s : str_lower (str_lower s) = str_lower s.
Proof. induction s as [|c s IH]; cbn; [done|]. by rewrite ascii_lower_idemp, IH. Qed.

Lemma validate_choice_Ok lower what allowed shown v k :
  (∀ a, a ∈ allowed → lower a = a) →
  validate_choice lower what allowed shown v = Ok k →
  k = lower v ∧ k ∈ allowed ∧ validate_choice lower what allowed shown k = Ok k.
Proof.
  intros Hfix. unfold validate_choice. case_bool_decide as Hin; [|discriminate].
  intros [= <-]. rewrite (Hfix _ Hin). by rewrite bool_decide_eq_true_2.
Qed.

Lemma validate_choice_Raise lower what allowed shown v :
  lower v ∉ allowed →
  validate_choice lower what allowed shown v
  = Raise (ValueError (what +:+ " must be one of " +:+ shown)).
Proof. intros Hout. unfold validate_choice. by rewrite bool_decide_eq_false_2. Qed.

(** The allowed values are lower-case ASCII and stay as they are. *)
Ltac allowed_fixed Hlow :=
  let a := fresh "a" in let Ha := fresh "Ha" in
  intros a Ha; unfold scanner_kinds in Ha; rewrite !elem_of_cons, elem_of_nil in Ha;
  repeat (destruct Ha as [-> | Ha];
          [rewrite Hlow; [reflexivity | repeat constructor; cbn; lia] |]);
  contradiction.

(** What the validators of a scan request let through is always one of the
    allowed values: the accepted value is the lower-cased input, it belongs
    to the validator's list, and validating it again returns it unchanged.
    A value whose lower-cased form is not in the list is refused with a
    [ValueError] that names the list.  Called without a value, the depth
    validator answers "normal" and the frequency validator answers
    nothing. *)
Theorem validators_normalise (lower : string → string) (v k : string) :
  lowers_ascii lower →
  (validate_scanner_type lower v = Ok k →
     k = lower v ∧ k ∈ scanner_kinds ∧ validate_scanner_type lower k = Ok k)
  ∧ (validate_target_type lower v = Ok k →
       k = lower v
       ∧ k ∈ ["container"; "host"; "application"; "repository"]
       ∧ validate_target_type lower k = Ok k)
  ∧ (validate_scan_frequency lower (Some v) = Ok (Some k) →
       k = lower v
       ∧ k ∈ ["once"; "daily"; "weekly"; "monthly"]
       ∧ validate_scan_frequency lower (Some k) = Ok (Some k))
  ∧ (validate_scan_depth lower (Some v) = Ok k →
       k = lower v
       ∧ k ∈ ["quick"; "normal"; "deep"]
       ∧ validate_scan_depth lower (Some k) = Ok k)
  ∧ (lower v ∉ scanner_kinds →
       validate_scanner_type lower v
       = Raise (ValueError "Scanner type must be one of ['trivy', 'openvas', 'dependency-check', 'custom']"))
  ∧ (lower v ∉ ["quick"; "normal"; "deep"] →
       validate_scan_depth lower (Some v)
       = Raise (ValueError "Scan depth must be one of ['quick', 'normal', 'deep']"))
  ∧ validate_scan_depth lower None = Ok "normal"
  ∧ validate_scan_frequency lower None = Ok None.
Proof.
  intros Hlow.
  split; [apply validate_choice_Ok; allowed_fixed Hlow|].
  split; [apply validate_choice_Ok; allowed_fixed Hlow|].
  split.
  { unfold validate_scan_frequency.
    destruct (validate_choice _ _ _ _ v) as [k'|e] eqn:E; cbn; [|discriminate].
    intros [= ->]. apply validate_choice_Ok in E as (-> & Hin & Hagain);
      [|allowed_fixed Hlow].
    by rewrite Hagain. }
  split; [apply validate_choice_Ok; allowed_fixed Hlow|].
  split; [apply validate_choice_Raise|].
  split; [apply validate_choice_Raise|].
  by split.
Qed.

Lemma validators_normalise_witness :
  validate_scanner_type str_lower "Dependency-Check" = Ok "dependency-check"
  ∧ "dependency-check" ∈ scanner_kinds
  ∧ validate_scan_depth str_lower (Some "DEEP") = Ok "deep"
  ∧ validate_scan_depth str_lower (Some "thorough")
    = Raise (ValueError "Scan depth must be one of ['quick', 'normal', 'deep']").
Proof.
  assert (Hlow : lowers_ascii str_lower) by (intros s _; reflexivity).
  destruct (validators_normalise str_lower "Dependency-Check" "dependency-check" Hlow)
    as (Hkind & _).
  destruct (validators_normalise str_lower "DEEP" "deep" Hlow)
    as (_ & _ & _ & Hdepth & _).
  destruct (validators_normalise str_lower "thorough" "" Hlow)
    as (_ & _ & _ & _ & _ & Hrefused & _).
  destruct Hkind as (_ & Hin & _); [reflexivity|].
  destruct Hdepth as (_ & _ & Hagain); [reflexivity|].
  split; [reflexivity|]. split; [exact Hin|]. split; [reflexivity|].
  apply Hrefused. rewrite !elem_of_cons, elem_of_nil.
  intros [H | [H | [H | []]]]; discriminate H.
Defined.

End validation.

(** ** The scan task, path by path *)

Section paths.

Import scan_service scan_tasks.

Lemma dispatched_marked_running env now scan_id scan :
  dispatched env scan_id (marked_running now scan) = dispatched env scan_id scan.
Proof. reflexivity. Qed.

(** [run_scan_task] on a scan that exists: mark it running, then either
    hand the adapter's result on or report the kind as unsupported. *)
Lemma run_scan_task_found env now db scan_id scan :
  scans db !! scan_id = Some scan →
  run_scan_task env now db scan_id =
    let running := marked_running now scan in
    let db1 := with_scans <[scan_id := running]> db in
    match dispatched env scan_id scan with
    | Some (adapter, results) =>
        process_results env now db1 scan_id running adapter results
    | None =>
        mkOutcome
          (update_scan_status now db1 scan_id "failed"
             (Some ("Unsupported scanner type: " +:+ scan.scanner_type scan))
             None None None None None).1
          (Failed ("Unsupported scanner type: " +:+ scan.scanner_type scan)) []
    end.
Proof.
  intros Hs. unfold run_scan_task. rewrite Hs.
  rewrite <- (dispatched_marked_running env now scan_id scan).
  unfold dispatched, marked_running. cbn zeta.
  repeat case_match; reflexivity.
Qed.


(** The row [update_scan_status] writes when it is given no counts and a
    status other than "completed". *)
Lemma update_scan_status_plain now db scan_id status message scan :
  scans db !! scan_id = Some scan →
  status ≠ "completed" →
  (update_scan_status now db scan_id status message None None None None None).1
  = with_scans <[scan_id := scan.set_updated_at now (scan.set_status status scan)]> db.
Proof.
  intros Hs Hne. unfold update_scan_status, get_scan. rewrite Hs.
  apply String.eqb_neq in Hne. by rewrite Hne.
Qed.

(** The row it writes for a completed scan with all five counts. *)
Lemma update_scan_status_completed now db scan_id message vc cc hc mc lc scan :
  scans db !! scan_id = Some scan →
  (update_scan_status now db scan_id "completed" message
     (Some vc) (Some cc) (Some hc) (Some mc) (Some lc)).1
  = with_scans
      <[scan_id := scan.mkScan (scan.name scan) (scan.scanner_type scan)
                     (scan.asset_id scan) (scan.target_type scan)
                     (scan.target_identifier scan) (scan.scan_depth scan)
                     "completed" now (scan.started_at scan) (Some now)
                     vc cc hc mc lc]> db.
Proof. intros Hs. unfold update_scan_status, get_scan. by rewrite Hs. Qed.

Lemma with_scans_insert_insert db scan_id (s1 s2 : scan.Scan) :
  with_scans <[scan_id := s2]> (with_scans <[scan_id := s1]> db)
  = with_scans <[scan_id := s2]> db.
Proof. unfold with_scans. cbn. by rewrite insert_insert_eq. Qed.

Lemma process_scan_findings_eq now db scan_id scan fs :
  scans db !! scan_id = Some scan →
  process_scan_findings now db scan_id fs
  = with_vulnerabilities (λ t, (t ++ records_of now scan_id scan fs)%list) db.
Proof.
  intros Hs. unfold process_scan_findings, records_of. rewrite Hs. clear Hs.
  revert db. induction fs as [|f fs IH]; intros [sc vs ms]; cbn [foldl fmap list_fmap].
  - unfold with_vulnerabilities. cbn. by rewrite app_nil_r.
  - rewrite create_vulnerability_from_finding_record. cbn [fst]. rewrite IH.
    unfold with_vulnerabilities. cbn. by rewrite <- app_assoc.
Qed.

Lemma with_scans_over_marked db scan_id (s1 s2 : scan.Scan) f :
  with_scans <[scan_id := s2]>
    (with_vulnerabilities f (with_scans <[scan_id := s1]> db))
  = with_scans <[scan_id := s2]> (with_vulnerabilities f db).
Proof. unfold with_scans, with_vulnerabilities. cbn. by rewrite insert_insert_eq. Qed.

(** Every way [run_scan_task] can go for a scan that exists, with the
    database, the returned value and the adapters called written out. *)
Lemma run_scan_task_paths env now db scan_id scan :
  scans db !! scan_id = Some scan →
  (∃ adapter results title message kind u,
     dispatched env scan_id scan = Some (adapter, results)
     ∧ status results = "success"
     ∧ send_notification env title message kind = Ok u
     ∧ run_scan_task env now db scan_id
       = mkOutcome
           (with_scans <[scan_id := completed_row now scan (findings results)]>
              (with_vulnerabilities
                 (λ t, (t ++ records_of now scan_id scan (findings results))%list) db))
           (Results results) [adapter])
  ∨ (∃ adapter results title message kind e,
       dispatched env scan_id scan = Some (adapter, results)
       ∧ status results = "success"
       ∧ send_notification env title message kind = Raise e
       ∧ run_scan_task env now db scan_id
         = mkOutcome
             (with_scans
                <[scan_id := failed_row now
                               (completed_row now scan (findings results))]>
                (with_vulnerabilities
                   (λ t, (t ++ records_of now scan_id scan (findings results))%list) db))
             (Failed (str_of_exn e)) [adapter])
  ∨ (∃ adapter results title message kind u,
       dispatched env scan_id scan = Some (adapter, results)
       ∧ status results ≠ "success"
       ∧ send_notification env title message kind = Ok u
       ∧ run_scan_task env now db scan_id
         = mkOutcome
             (with_scans <[scan_id := failed_row now (marked_running now scan)]> db)
             (Results results) [adapter])
  ∨ (∃ adapter results title message kind e,
       dispatched env scan_id scan = Some (adapter, results)
       ∧ status results ≠ "success"
       ∧ send_notification env title message kind = Raise e
       ∧ run_scan_task env now db scan_id
         = mkOutcome
             (with_scans <[scan_id := failed_row now (marked_running now scan)]> db)
             (Failed (str_of_exn e)) [adapter])
  ∨ (dispatched env scan_id scan = None
     ∧ run_scan_task env now db scan_id
       = mkOutcome
           (with_scans <[scan_id := failed_row now (marked_running now scan)]> db)
           (Failed ("Unsupported scanner type: " +:+ scan.scanner_type scan)) []).
Proof.
  intros Hs. pose proof (run_scan_task_found env now db scan_id scan Hs) as Hout.
  cbn zeta in Hout.
  set (running := marked_running now scan) in *.
  set (db1 := with_scans <[scan_id := running]> db) in *.
  assert (Hs1 : scans db1 !! scan_id = Some running) by apply lookup_with_scans_insert.
  destruct (dispatched env scan_id scan) as [[adapter results]|] eqn:Hd.
  - unfold process_results in Hout.
    destruct (String.eqb (status results) "success") eqn:Hok.
    + apply String.eqb_eq in Hok.
      rewrite (process_scan_findings_eq now db1 scan_id running (findings results) Hs1)
        in Hout.
      destruct (send_notification env _ _ _) as [u|e] eqn:Hn; cbv beta iota in Hout;
        rewrite update_scan_status_completed with (scan := running) in Hout
          by exact Hs1;
        unfold db1 in Hout; rewrite with_scans_over_marked in Hout;
        change (scan.mkScan _ _ _ _ _ _ "completed" now _ (Some now) _ _ _ _ _)
          with (completed_row now scan (findings results)) in Hout;
        change (records_of now scan_id running (findings results))
          with (records_of now scan_id scan (findings results)) in Hout.
      * left. rewrite Hout. do 6 eexists.
        split; [reflexivity|]. split; [exact Hok|]. split; [exact Hn | reflexivity].
      * right; left. rewrite Hout. do 6 eexists.
        split; [reflexivity|]. split; [exact Hok|]. split; [exact Hn|].
        unfold run_scan_task_except.
        rewrite (update_scan_status_plain now _ scan_id "failed" _
                   (completed_row now scan (findings results)))
          by (apply lookup_with_scans_insert || discriminate).
        by rewrite with_scans_insert_insert.
    + apply String.eqb_neq in Hok.
      destruct (send_notification env _ _ _) as [u|e] eqn:Hn; cbv beta iota in Hout;
        rewrite (update_scan_status_plain now db1 scan_id "failed" _ running Hs1)
          in Hout by discriminate;
        unfold db1 in Hout; rewrite with_scans_insert_insert in Hout.
      * right; right; left. rewrite Hout. do 6 eexists.
        split; [reflexivity|]. split; [exact Hok|]. split; [exact Hn | reflexivity].
      * right; right; right; left. rewrite Hout. do 6 eexists.
        split; [reflexivity|]. split; [exact Hok|]. split; [exact Hn|].
        unfold run_scan_task_except.
        rewrite (update_scan_status_plain now _ scan_id "failed" _
                   (failed_row now running))
          by (apply lookup_with_scans_insert || discriminate).
        by rewrite with_scans_insert_insert.
  - right; right; right; right. split; [reflexivity|]. rewrite Hout.
    rewrite (update_scan_status_plain now db1 scan_id "failed" _ running Hs1)
      by discriminate.
    unfold db1. by rewrite with_scans_insert_insert.
Qed.

(** The status a run leaves behind. *)
Lemma run_scan_task_status env now db scan_id scan :
  scans db !! scan_id = Some scan →
  ∃ s', scans (db_after (run_scan_task env now db scan_id)) !! scan_id = Some s'
        ∧ (scan.status s' = "completed" ∨ scan.status s' = "failed")
        ∧ scan.started_at s' = Some now
        ∧ scan.updated_at s' = now
        ∧ (scan.status s' = "completed"
           ↔ ∃ results, returned (run_scan_task env now db scan_id) = Results results
                        ∧ status results = "success").
Proof.
  intros Hs.
  destruct (run_scan_task_paths env now db scan_id scan Hs)
    as [(a & r & t & m & k & u & Hd & Hok & _ & ->)
       |[(a & r & t & m & k & e & Hd & Hok & _ & ->)
       |[(a & r & t & m & k & u & Hd & Hok & _ & ->)
       |[(a & r & t & m & k & e & Hd & Hok & _ & ->)
       |(Hd & ->)]]]];
    cbn [db_after returned]; rewrite lookup_with_scans_insert;
    eexists; (split; [reflexivity|]); cbn.
  - split; [by left|]. split; [done|]. split; [done|]. split; [eauto | done].
  - split; [by right|]. split; [done|]. split; [done|].
    split; [discriminate | intros (? & [=] & _)].
  - split; [by right|]. split; [done|]. split; [done|].
    split; [discriminate | intros (? & [= <-] & ?); done].
  - split; [by right|]. split; [done|]. split; [done|].
    split; [discriminate | intros (? & [=] & _)].
  - split; [by right|]. split; [done|]. split; [done|].
    split; [discriminate | intros (? & [=] & _)].
Qed.





(** Whatever the status of a scan was, pending, running, stopped or
    terminal, the task leaves it [completed] or [failed], started and
    updated at the time of the run; it is [completed] exactly when the
    task returns the dictionary of a successful adapter run. *)
Theorem run_scan_task_ends_terminal env now db scan_id scan :
  scans db !! scan_id = Some scan →
  ∃ s', scans (db_after (run_scan_task env now db scan_id)) !! scan_id = Some s'
        ∧ (scan.status s' = "completed" ∨ scan.status s' = "failed")
        ∧ scan.started_at s' = Some now
        ∧ scan.updated_at s' = now
        ∧ (scan.status s' = "completed"
           ↔ ∃ results, returned (run_scan_task env now db scan_id) = Results results
                        ∧ status results = "success").
Proof. apply run_scan_task_status. Qed.

Lemma run_scan_task_ends_terminal_witness :
  ∃ s', scans (db_after (run_scan_task examples.broken_environment 200
                           (examples.session_with examples.completed_scan) 1))
          !! 1%Z = Some s'
        ∧ scan.status s' = "failed"
        ∧ scan.started_at s' = Some 200%Z.
Proof.
  destruct (run_scan_task_ends_terminal examples.broken_environment 200
              (examples.session_with examples.completed_scan) 1
              examples.completed_scan eq_refl)
    as (s' & Hs' & _ & Hstart & _).
  exists s'. split; [exact Hs'|]. split; [|exact Hstart].
  vm_compute in Hs'. by injection Hs' as <-.
Defined.

(** When the adapter reports a failure the task stores no record, and the
    scan's row keeps the counters and the completion time it had, from an
    earlier run if there was one, under the status [failed]. *)
Theorem run_scan_task_adapter_failure env now db scan_id scan adapter results :
  scans db !! scan_id = Some scan →
  dispatched env scan_id scan = Some (adapter, results) →
  status results ≠ "success" →
  vulnerabilities (db_after (run_scan_task env now db scan_id)) = vulnerabilities db
  ∧ ∃ s', scans (db_after (run_scan_task env now db scan_id)) !! scan_id = Some s'
          ∧ scan.status s' = "failed"
          ∧ scan.completed_at s' = scan.completed_at scan
          ∧ scan.vulnerabilities_count s' = scan.vulnerabilities_count scan
          ∧ scan.critical_count s' = scan.critical_count scan
          ∧ scan.high_count s' = scan.high_count scan
          ∧ scan.medium_count s' = scan.medium_count scan
          ∧ scan.low_count s' = scan.low_count scan.
Proof.
  intros Hs Hd Hfail.
  destruct (run_scan_task_paths env now db scan_id scan Hs)
    as [(a & r & t & m & k & u & Hd' & Hok & _ & ->)
       |[(a & r & t & m & k & e & Hd' & Hok & _ & ->)
       |[(a & r & t & m & k & u & Hd' & Hok & _ & ->)
       |[(a & r & t & m & k & e & Hd' & Hok & _ & ->)
       |(Hd' & ->)]]]];
    rewrite Hd in Hd'; try discriminate Hd'; try (injection Hd' as <- <-; done);
    cbn [db_after]; (split; [reflexivity|]);
    rewrite lookup_with_scans_insert; eexists; (split; [reflexivity|]);
    repeat split.
Qed.

Lemma run_scan_task_adapter_failure_witness :
  vulnerabilities (db_after (run_scan_task examples.broken_environment 200
                               (examples.session_with examples.completed_scan) 1)) = []
  ∧ ∃ s', scans (db_after (run_scan_task examples.broken_environment 200
                             (examples.session_with examples.completed_scan) 1))
            !! 1%Z = Some s'
          ∧ scan.status s' = "failed"
          ∧ scan.vulnerabilities_count s' = 2.
Proof.
  destruct (run_scan_task_adapter_failure examples.broken_environment 200
              (examples.session_with examples.completed_scan) 1
              examples.completed_scan "trivy"
              (failed_result "Trivy scan failed: FATAL: image not found"))
    as (Hv & s' & Hs' & Hst & _ & Hvc & _); [reflexivity | reflexivity | discriminate |].
  split; [exact Hv|]. exists s'. split; [exact Hs'|]. split; [exact Hst | exact Hvc].
Defined.



Lemma lower_after_get_Ok v key dflt s :
  Py.bind (get v key dflt) lower = Ok s → str_lower s = s.
Proof.
  destruct (get v key dflt) as [w|]; [|discriminate]. cbn [Py.bind].
  destruct w; try discriminate. intros [= <-]. apply str_lower_idemp.
Qed.

Lemma trivy_finding_lower_severity env result vuln finding :
  trivy_finding env result vuln = Ok finding → lower_severity finding.
Proof.
  unfold trivy_finding, mbind, result_bind, mret, result_ret. intros H.
  bind_cases_in H. injection H as <-.
  match goal with
  | E : Py.bind (get _ "Severity" _) lower = Ok ?s |- _ =>
      exists s; split; [by simplify_map_eq | exact (lower_after_get_Ok _ _ _ _ E)]
  end.
Qed.

Lemma dependency_check_finding_lower_severity env dependency vuln finding :
  dependency_check_finding env dependency vuln = Ok finding → lower_severity finding.
Proof.
  unfold dependency_check_finding, mbind, result_bind, mret, result_ret. intros H.
  bind_cases_in H. injection H as <-.
  match goal with
  | E : Py.bind (get _ "severity" _) lower = Ok ?s |- _ =>
      exists s; split; [by simplify_map_eq | exact (lower_after_get_Ok _ _ _ _ E)]
  end.
Qed.

Lemma dispatched_lower_severity env scan_id scan adapter results :
  dispatched env scan_id scan = Some (adapter, results) →
  Forall lower_severity (findings results).
Proof.
  unfold dispatched. repeat case_match; intros [= <- <-].
  - unfold run_trivy_scan.
    destruct (run_trivy_scan_body env scan) as [r|e] eqn:E; cbn [try_except].
    + unfold run_trivy_scan_body, mbind, result_bind, mret, result_ret in E.
      bind_cases_in E. injection E as <-. cbn [findings].
      apply Forall_concat. eapply for_each_Forall; [|eassumption].
      cbn beta. intros result fs Hfs. bind_cases_in Hfs.
      eapply for_each_Forall; [|eassumption]. apply trivy_finding_lower_severity.
    + destruct e; constructor.
  - repeat constructor; eexists; (split; [by simplify_map_eq | reflexivity]).
  - unfold run_dependency_check_scan.
    destruct (run_dependency_check_scan_body env scan_id scan) as [r|e] eqn:E;
      cbn [try_except].
    + unfold run_dependency_check_scan_body, mbind, result_bind, mret, result_ret in E.
      bind_cases_in E. injection E as <-. cbn [findings].
      apply Forall_concat. eapply for_each_Forall; [|eassumption].
      cbn beta. intros dependency fs Hfs. bind_cases_in Hfs.
      eapply for_each_Forall; [|eassumption].
      apply dependency_check_finding_lower_severity.
    + destruct e; constructor.
Qed.

Lemma records_of_lower_case now scan_id scan fs :
  Forall lower_severity fs →
  Forall lower_case_severity (records_of now scan_id scan fs).
Proof.
  intros H. unfold records_of. apply Forall_fmap. eapply Forall_impl; [exact H|].
  intros f (s & Hs & Hlow). exists s. split; [|done].
  cbn. unfold dict_get. by rewrite Hs.
Qed.

(** What a run appends to the vulnerability table. *)
Lemma run_scan_task_appends env now db scan_id :
  ∃ created,
    vulnerabilities (db_after (run_scan_task env now db scan_id))
      = (vulnerabilities db ++ created)%list
    ∧ Forall (λ v, vulnerability.scan_id v = scan_id) created
    ∧ Forall lower_case_severity created.
Proof.
  destruct (scans db !! scan_id) as [scan|] eqn:Hs.
  - destruct (run_scan_task_paths env now db scan_id scan Hs)
      as [(a & r & t & m & k & u & Hd & _ & _ & ->)
         |[(a & r & t & m & k & e & Hd & _ & _ & ->)
         |[(a & r & t & m & k & u & Hd & _ & _ & ->)
         |[(a & r & t & m & k & e & Hd & _ & _ & ->)
         |(Hd & ->)]]]]; cbn [db_after].
    1, 2: exists (records_of now scan_id scan (findings r));
          (split; [reflexivity|]); (split; [apply record_of_scan_id|]);
          eapply records_of_lower_case, dispatched_lower_severity, Hd.
    all: exists []; cbn; by rewrite app_nil_r.
  - unfold run_scan_task. rewrite Hs. exists []. cbn. by rewrite app_nil_r.
Qed.

(** A run touches one scan and appends to one table: the models and every
    other scan are as before, no scan appears or disappears, and the
    vulnerability table keeps all its rows, in order, followed by the new
    ones, each of which belongs to the scan.  For an id without a scan the
    task changes nothing at all, calls no adapter and returns a failure
    that names the id. *)
Theorem run_scan_task_frame env now db scan_id :
  ml_models (db_after (run_scan_task env now db scan_id)) = ml_models db
  ∧ (∀ other, other ≠ scan_id →
       scans (db_after (run_scan_task env now db scan_id)) !! other
       = scans db !! other)
  ∧ dom (scans (db_after (run_scan_task env now db scan_id))) = dom (scans db)
  ∧ (∃ created,
       vulnerabilities (db_after (run_scan_task env now db scan_id))
         = (vulnerabilities db ++ created)%list
       ∧ Forall (λ v, vulnerability.scan_id v = scan_id) created)
  ∧ (scans db !! scan_id = None →
     run_scan_task env now db scan_id
     = mkOutcome db (Failed ("Scan with ID " +:+ pretty scan_id +:+ " not found")) []).
Proof.
  destruct (run_scan_task_appends env now db scan_id) as (created & Hv & Hid & _).
  assert (Hmissing : scans db !! scan_id = None →
            run_scan_task env now db scan_id
            = mkOutcome db (Failed ("Scan with ID " +:+ pretty scan_id
                                    +:+ " not found")) []).
  { intros Hs. unfold run_scan_task. by rewrite Hs. }
  destruct (scans db !! scan_id) as [scan|] eqn:Hs.
  - assert (Hrow : ∃ s', scans (db_after (run_scan_task env now db scan_id))
                         = <[scan_id := s']> (scans db)
                         ∧ ml_models (db_after (run_scan_task env now db scan_id))
                           = ml_models db).
    { destruct (run_scan_task_paths env now db scan_id scan Hs)
        as [(a & r & t & m & k & u & _ & _ & _ & ->)
           |[(a & r & t & m & k & e & _ & _ & _ & ->)
           |[(a & r & t & m & k & u & _ & _ & _ & ->)
           |[(a & r & t & m & k & e & _ & _ & _ & ->)
           |(_ & ->)]]]]; cbn; eauto. }
    destruct Hrow as (s' & Hsc & Hml).
    split; [exact Hml|]. split; [intros other Hne; by rewrite Hsc, lookup_insert_ne|].
    split; [|split; [eauto | discriminate]].
    rewrite Hsc. apply dom_insert_lookup_L. by rewrite Hs.
  - rewrite (Hmissing eq_refl). cbn. split; [done|]. split; [done|]. split; [done|].
    split; [|done]. exists []. by rewrite app_nil_r.
Qed.

Lemma run_scan_task_frame_witness :
  scans (db_after (run_scan_task examples.moderate_environment 200
                     (examples.session_with examples.openvas_scan) 1)) !! 2%Z = None
  ∧ run_scan_task examples.moderate_environment 200
      (examples.session_with examples.openvas_scan) 2
    = mkOutcome (examples.session_with examples.openvas_scan)
        (Failed "Scan with ID 2 not found") [].
Proof.
  destruct (run_scan_task_frame examples.moderate_environment 200
              (examples.session_with examples.openvas_scan) 1)
    as (_ & Hother & _).
  destruct (run_scan_task_frame examples.moderate_environment 200
              (examples.session_with examples.openvas_scan) 2)
    as (_ & _ & _ & _ & Hmissing).
  split.
  - rewrite Hother; [reflexivity | discriminate].
  - apply Hmissing. reflexivity.
Defined.

(** Every record a run stores has a severity that is a string without
    upper-case ASCII letters, whichever adapter produced the finding and
    whatever the scanner reported; the rows the table had before the run
    stay in front of the new ones. *)
Theorem run_scan_task_severity_lower_case env now db scan_id :
  ∃ created,
    vulnerabilities (db_after (run_scan_task env now db scan_id))
      = (vulnerabilities db ++ created)%list
    ∧ Forall lower_case_severity created.
Proof.
  destruct (run_scan_task_appends env now db scan_id) as (created & Hv & _ & Hlow).
  eauto.
Qed.

End paths.

(** ** Requests on a scan, one after the other *)

Section requests.

Import scan_service scans scan_tasks.

(** Starting a scan and then stopping it leaves it [stopped], with the
    start time of the start request kept, and leaves the scan task that the
    start request queued in the queue; a second stop is refused with the
    400 error and changes nothing.  When the queued task then runs, it
    runs the scan all the same: the status it leaves is [completed] or
    [failed], not [stopped]. *)
Theorem start_stop_then_task env now1 now2 now3 now4 st scan_id scan :
  scans (db st) !! scan_id = Some scan →
  let started := (start_scan_endpoint now1 st scan_id).1 in
  let stopped := (stop_scan_endpoint now2 started scan_id).1 in
  (∃ row, (stop_scan_endpoint now2 started scan_id).2 = Respond (Some row)
          ∧ scans (db stopped) !! scan_id = Some row
          ∧ scan.status row = "stopped"
          ∧ scan.started_at row = Some now1)
  ∧ background_tasks stopped = (background_tasks st ++ [scan_id])%list
  ∧ stop_scan_endpoint now3 stopped scan_id
    = (stopped, HTTPException HTTP_400_BAD_REQUEST "Scan is not running")
  ∧ ∃ s', scans (db_after (run_scan_task env now4 (db stopped) scan_id)) !! scan_id
          = Some s'
          ∧ (scan.status s' = "completed" ∨ scan.status s' = "failed").
Proof.
  intros Hs. cbn zeta.
  unfold start_scan_endpoint, get_scan. rewrite Hs.
  rewrite (start_scan_found now1 (db st) scan_id scan Hs). cbn [fst snd].
  set (running := scan.set_updated_at now1
                    (scan.set_started_at (Some now1) (scan.set_status "running" scan))).
  set (st1 := mkApp (with_scans <[scan_id := running]> (db st))
                (background_tasks st ++ [scan_id])).
  assert (Hs1 : scans (db st1) !! scan_id = Some running)
    by apply lookup_with_scans_insert.
  assert (Hstop : stop_scan_endpoint now2 st1 scan_id
            = (mkApp (with_scans <[scan_id := scan.set_updated_at now2
                                     (scan.set_status "stopped" running)]> (db st1))
                 (background_tasks st1),
               Respond (Some (scan.set_updated_at now2
                                (scan.set_status "stopped" running))))).
  { unfold stop_scan_endpoint, get_scan. rewrite Hs1. cbn [scan.status running].
    change (negb _) with false. cbv iota.
    by rewrite (stop_scan_found now2 (db st1) scan_id running Hs1). }
  rewrite Hstop. cbn [fst snd].
  split; [eexists; split; [reflexivity|]; split;
          [apply lookup_with_scans_insert | by split]|].
  split; [reflexivity|].
  split.
  - unfold stop_scan_endpoint, get_scan. cbn [db].
    by rewrite lookup_with_scans_insert.
  - destruct (run_scan_task_status env now4
                (with_scans <[scan_id := scan.set_updated_at now2
                                (scan.set_status "stopped" running)]> (db st1))
                scan_id _ (lookup_with_scans_insert _ _ _))
      as (s' & Hs' & Hst & _).
    eauto.
Qed.

Lemma start_stop_then_task_witness :
  stop_scan_endpoint 230
    (stop_scan_endpoint 220
       (start_scan_endpoint 210 (examples.app_with examples.pending_scan) 1).1 1).1 1
  = ((stop_scan_endpoint 220
        (start_scan_endpoint 210 (examples.app_with examples.pending_scan) 1).1 1).1,
     HTTPException HTTP_400_BAD_REQUEST "Scan is not running").
Proof.
  destruct (start_stop_then_task examples.moderate_environment 210 220 230 240
              (examples.app_with examples.pending_scan) 1 examples.pending_scan
              eq_refl) as (_ & _ & Hagain & _).
  exact Hagain.
Defined.



End requests.

(** ** What the Trivy adapter makes of a report *)

Section trivy.

Import scan_tasks.

Lemma lower_Ok v s : lower v = Ok s → ∃ t, v = PStr t ∧ s = str_lower t.
Proof. destruct v; try discriminate. intros [= <-]. eauto. Qed.

(** The finding built from a Trivy vulnerability takes its severity from
    the scanner, lower-cased, and the empty string when the scanner gives
    none; its title is the scanner's title, else the vulnerability id,
    else "Unknown"; and a patch counts as available unless the fixed
    version is missing or the empty string.  The finding has all eleven
    keys of the canonical form. *)
Theorem trivy_finding_fields env result (d : gmap string pyval) finding :
  trivy_finding env result (PDict d) = Ok finding →
  (∃ s, dict_get d "Severity" (PStr "") = PStr s
        ∧ finding !! "severity" = Some (PStr (str_lower s)))
  ∧ finding !! "title"
    = Some (dict_get d "Title" (dict_get d "VulnerabilityID" (PStr "Unknown")))
  ∧ finding !! "cve_id" = Some (dict_get d "VulnerabilityID" (PStr ""))
  ∧ (finding !! "patch_available" = Some (PBool false)
     ∨ finding !! "patch_available" = Some (PBool true))
  ∧ (finding !! "patch_available" = Some (PBool false)
     ↔ d !! "FixedVersion" = None ∨ d !! "FixedVersion" = Some (PStr ""))
  ∧ Forall (λ key, is_Some (finding !! key))
      ["title"; "description"; "cve_id"; "severity"; "cvss_score"; "cvss_vector";
       "affected_component"; "affected_version"; "exploit_available";
       "patch_available"; "metadata"].
Proof.
  unfold trivy_finding, mbind, result_bind, mret, result_ret. cbn [get Py.bind].
  intros H. bind_cases_in H. injection H as <-.
  match goal with
  | E : lower _ = Ok _ |- _ => apply lower_Ok in E as (t & Ht & ->)
  end.
  split; [exists t; split; [done | by simplify_map_eq]|].
  split; [by simplify_map_eq|]. split; [by simplify_map_eq|].
  match goal with
  | |- context [?m !! "patch_available"] =>
      assert (Hpatch : m !! "patch_available"
                       = Some (ne_empty (dict_get d "FixedVersion" (PStr ""))))
        by by simplify_map_eq
  end.
  split; [|split].
  - rewrite Hpatch. unfold ne_empty. destruct (eq_str _ ""); auto.
  - rewrite Hpatch. unfold ne_empty, dict_get.
    destruct (d !! "FixedVersion") as [[| | | |s| |]|]; cbn;
      try (split; [discriminate | intros [H | H]; discriminate H]);
      [|split; auto].
    destruct s; cbn; split; auto; try discriminate;
      intros [H | H]; discriminate H.
  - repeat constructor; by simplify_map_eq.
Qed.

Lemma trivy_finding_fields_witness :
  trivy_finding examples.moderate_environment (PDict ∅)
    (PDict examples.trivy_vulnerability) = Ok examples.trivy_example_finding
  ∧ examples.trivy_example_finding !! "severity" = Some (PStr "critical")
  ∧ examples.trivy_example_finding !! "title" = Some (PStr "CVE-2021-3711").
Proof.
  assert (E : trivy_finding examples.moderate_environment (PDict ∅)
                (PDict examples.trivy_vulnerability)
              = Ok examples.trivy_example_finding) by (vm_compute; reflexivity).
  destruct (trivy_finding_fields examples.moderate_environment (PDict ∅)
              examples.trivy_vulnerability examples.trivy_example_finding E)
    as ((s & Hs & Hsev) & Htitle & _).
  split; [exact E|]. split; [|exact Htitle].
  vm_compute in Hs. injection Hs as <-. exact Hsev.
Defined.

Lemma for_each_all_nil {A B} (f : A → result (list B)) l :
  Forall (λ a, f a = Ok []) l →
  ∃ bss, for_each f l = Ok bss ∧ concat bss = [].
Proof.
  induction 1 as [|a l Ha _ (bss & Hbss & Hnil)]; [by exists []|].
  exists ([] :: bss). cbn. by rewrite Ha, Hbss.
Qed.

(** What the Trivy adapter returns for a report that parses.  A report
    whose results list no vulnerability, because the report has no
    "Results", the list is empty, or no result has a non-empty
    "Vulnerabilities", is a successful scan without findings.  A result
    whose "Vulnerabilities" is JSON null makes the scan fail, and so does
    a report that is not a JSON object. *)
Theorem run_trivy_scan_report_shapes env scan stdout output :
  subprocess_run env (trivy_cmd env scan) = Ok stdout →
  json_loads env stdout = Ok output →
  (∀ d rs, output = PDict d →
           dict_get d "Results" (PList []) = PList rs →
           Forall clean_result rs →
           run_trivy_scan env scan
           = mkAdapterResult "success" "Scan completed successfully" [] (Some output))
  ∧ (∀ d rd rest, output = PDict d →
                  d !! "Results" = Some (PList (PDict rd :: rest)) →
                  rd !! "Vulnerabilities" = Some PNone →
                  ∃ message, run_trivy_scan env scan = failed_result message)
  ∧ ((∀ d, output ≠ PDict d) →
     ∃ message, run_trivy_scan env scan = failed_result message).
Proof.
  intros Hrun Hjson.
  assert (Hbody : run_trivy_scan_body env scan
            = (results ← get output "Results" (PList []) ≫= iter;
               findings ← for_each (λ result,
                   vulns ← get result "Vulnerabilities" (PList []) ≫= iter;
                   for_each (trivy_finding env result) vulns) results;
               mret {| status := "success";
                       message := "Scan completed successfully";
                       findings := concat findings;
                       raw_output := Some output |})).
  { unfold run_trivy_scan_body, mbind, result_bind.
    rewrite Hrun. cbn [Py.bind]. by rewrite Hjson. }
  assert (Hraise : ∀ e, run_trivy_scan_body env scan = Raise e →
            ∃ message, run_trivy_scan env scan = failed_result message).
  { intros e He. destruct (run_trivy_scan_raise env scan e He) as (m & Hm & _). eauto. }
  split; [|split].
  - intros d rs -> Hres Hclean. unfold run_trivy_scan. rewrite Hbody.
    unfold mbind, result_bind, mret, result_ret. cbn [get Py.bind]. rewrite Hres.
    cbn [iter Py.bind].
    match goal with
    | |- context [for_each ?f rs] =>
        destruct (for_each_all_nil f rs) as (bss & Hbss & Hnil);
          [|rewrite Hbss; cbn [Py.bind]; by rewrite Hnil]
    end.
    eapply Forall_impl; [exact Hclean|].
    intros r (rd & -> & [Hv | Hv]); cbn [get Py.bind]; unfold dict_get;
      by rewrite Hv.
  - intros d rd rest -> Hres Hnull. eapply Hraise. rewrite Hbody.
    unfold mbind, result_bind, mret, result_ret. cbn [get Py.bind].
    unfold dict_get at 1. rewrite Hres.
    cbn [default from_option id iter Py.bind for_each get].
    unfold dict_get. rewrite Hnull. reflexivity.
  - intros Hnot. destruct output as [| | | | | |d];
      try (eapply Hraise; rewrite Hbody; reflexivity).
    by destruct (Hnot d).
Qed.

Lemma run_trivy_scan_report_shapes_witness :
  run_trivy_scan examples.moderate_environment examples.trivy_scan
  = mkAdapterResult "success" "Scan completed successfully" []
      (Some examples.moderate_report).
Proof.
  destruct (run_trivy_scan_report_shapes examples.moderate_environment
              examples.trivy_scan "" examples.moderate_report eq_refl eq_refl)
    as (Hclean & _).
  eapply Hclean; [reflexivity | reflexivity | constructor].
Defined.

End trivy.

(** ** Models: training, selection and prediction together *)

Section models.

Import ml_service.

Lemma train_model_found sk now db model_id params m :
  ml_models db !! model_id = Some m →
  train_model sk now db model_id params
  = let training := ml_model.set_status "training" now m in
    let db1 := with_ml_models <[model_id := training]> db in
    match fit_steps sk training params with
    | Ok (hyperparameters, metrics, feature_importance, model_data) =>
        let trained :=
          ml_model.mkMLModel (ml_model.name m) (ml_model.version m)
            hyperparameters metrics feature_importance (Some model_data)
            "trained" now in
        (with_ml_models <[model_id := trained]> db1, Some trained)
    | Raise e =>
        (with_ml_models <[model_id := ml_model.set_status "error" now training]> db1,
         None)
    end.
Proof. intros Hm. unfold train_model, get_model. by rewrite Hm. Qed.

Lemma lookup_with_ml_models_insert db model_id (m : ml_model.MLModel) :
  ml_models (with_ml_models <[model_id := m]> db) !! model_id = Some m.
Proof. cbn. apply lookup_insert_eq. Qed.

(** A training run never leaves the model [training]: the record ends
    [trained], with a payload, exactly when the run returns it, and
    [error] otherwise, updated at the time of the run and with its name
    and version unchanged.  The other models, the scans and the
    vulnerability table are untouched, and for an id without a model the
    run changes nothing and returns nothing. *)
Theorem train_model_outcome sk now db model_id params :
  (ml_models db !! model_id = None →
     train_model sk now db model_id params = (db, None))
  ∧ (∀ m, ml_models db !! model_id = Some m →
       ∃ m', ml_models (train_model sk now db model_id params).1 !! model_id = Some m'
             ∧ ml_model.updated_at m' = now
             ∧ ml_model.name m' = ml_model.name m
             ∧ ml_model.version m' = ml_model.version m
             ∧ ((ml_model.status m' = "trained"
                 ∧ (train_model sk now db model_id params).2 = Some m'
                 ∧ is_Some (ml_model.model_data m'))
                ∨ (ml_model.status m' = "error"
                   ∧ (train_model sk now db model_id params).2 = None)))
  ∧ (∀ other, other ≠ model_id →
       ml_models (train_model sk now db model_id params).1 !! other
       = ml_models db !! other)
  ∧ scans (train_model sk now db model_id params).1 = scans db
  ∧ vulnerabilities (train_model sk now db model_id params).1 = vulnerabilities db.
Proof.
  destruct (ml_models db !! model_id) as [m|] eqn:Hm.
  - rewrite (train_model_found sk now db model_id params m Hm). cbn zeta.
    destruct (fit_steps sk _ params) as [[[[h me] fi] payload]|e]; cbn [fst snd].
    + split; [discriminate|]. split.
      * intros ? [= <-]. eexists. split; [apply lookup_with_ml_models_insert|].
        cbn. repeat split; try done. left. eauto.
      * split; [|done]. intros other Hne. cbn. by rewrite !lookup_insert_ne.
    + split; [discriminate|]. split.
      * intros ? [= <-]. eexists. split; [apply lookup_with_ml_models_insert|].
        cbn. repeat split; try done. by right.
      * split; [|done]. intros other Hne. cbn. by rewrite !lookup_insert_ne.
  - assert (Hnone : train_model sk now db model_id params = (db, None))
      by (unfold train_model, get_model; by rewrite Hm).
    rewrite Hnone. cbn. split; [done|]. split; [discriminate | done].
Qed.

Lemma train_model_outcome_witness :
  train_model examples.working_sklearn 30 examples.model_session 9 ∅
  = (examples.model_session, None)
  ∧ ml_models (train_model examples.working_sklearn 30 examples.model_session 3 ∅).1
      !! 2%Z = Some examples.trained_model
  ∧ ∃ m', ml_models (train_model examples.working_sklearn 30
                       examples.model_session 3 ∅).1 !! 3%Z = Some m'
          ∧ ml_model.updated_at m' = 30%Z.
Proof.
  destruct (train_model_outcome examples.working_sklearn 30 examples.model_session 9 ∅)
    as (Hmissing & _).
  destruct (train_model_outcome examples.working_sklearn 30 examples.model_session 3 ∅)
    as (_ & Hrow & Hother & _).
  split; [apply Hmissing; reflexivity|].
  split; [rewrite Hother; [reflexivity | discriminate]|].
  destruct (Hrow examples.untrained_model eq_refl) as (m' & Hm' & Hup & _).
  eauto.
Defined.

Lemma predict_no_model sk rt now db (data : gmap string pyval) requested :
  predict_vulnerability_priority sk rt now db data requested
    = Raise (ValueError "No trained model found")
  ↔ _get_latest_model db requested = None.
Proof.
  unfold predict_vulnerability_priority.
  destruct (_get_latest_model db requested) as [found|]; [|done].
  destruct (predict_body sk rt now found data) as [p|e];
    split; intros H; discriminate H.
Qed.

(** A retraining that fails takes a trained model out of service although
    its payload is kept: when the model was the only usable one, every
    prediction after the failed run fails with "No trained model found". *)
Theorem failed_retraining_ends_service sk rt now now' db model_id params m e
    (data : gmap string pyval) (requested : option Z) :
  ml_models db !! model_id = Some m →
  fit_steps sk (ml_model.set_status "training" now m) params = Raise e →
  (∀ j mj, ml_models db !! j = Some mj → usable mj → j = model_id) →
  predict_vulnerability_priority sk rt now'
    (train_model sk now db model_id params).1 data requested
  = Raise (ValueError "No trained model found").
Proof.
  intros Hm Hfit Honly.
  rewrite (train_model_found sk now db model_id params m Hm). cbn zeta.
  rewrite Hfit. cbn [fst].
  apply predict_no_model, _get_latest_model_None.
  intros (j & mj & Hj & Huse). cbn in Hj.
  destruct (decide (j = model_id)) as [->|Hne].
  - rewrite lookup_insert_eq in Hj. injection Hj as <-.
    destruct Huse as [Hst _]. discriminate Hst.
  - rewrite !lookup_insert_ne in Hj by done. eauto.
Qed.

Lemma failed_retraining_ends_service_witness :
  predict_vulnerability_priority examples.failing_sklearn examples.strict_runtime 31
    (train_model examples.failing_sklearn 30
       (with_ml_models (λ _, <[2%Z := examples.trained_model]> ∅)
          examples.empty_session) 2 ∅).1
    examples.test_vulnerability_data (Some 2%Z)
  = Raise (ValueError "No trained model found").
Proof.
  apply (failed_retraining_ends_service examples.failing_sklearn
           examples.strict_runtime 30 31
           (with_ml_models (λ _, <[2%Z := examples.trained_model]> ∅)
              examples.empty_session)
           2 ∅ examples.trained_model (ValueError "Unknown label type: continuous"));
    [reflexivity | reflexivity |].
  intros j mj Hj _. cbn in Hj.
  destruct (decide (j = 2%Z)) as [->|Hne]; [done|].
  rewrite lookup_insert_ne in Hj by done. by rewrite lookup_empty in Hj.
Defined.

(** The loop that builds the explanation: one entry per feature name, with
    the importance at the same position. *)
Lemma explanation_loop (importances : list Q) (names : list string) k l :
  for_each (λ '(i, name),
              match importances !! i with
              | Some x => Ok (name, x)
              | None => Raise (IndexError "index out of bounds")
              end)
           (imap (λ i name, (k + i, name)) names) = Ok l →
  l = zip names (take (length names) (drop k importances))
  ∧ (length names ≤ length (drop k importances))%nat.
Proof.
  revert k l. induction names as [|name names IH]; intros k l.
  - cbn. intros [= <-]. split; [done | lia].
  - rewrite imap_cons. cbn [for_each]. rewrite Nat.add_0_r.
    destruct (importances !! k) as [x|] eqn:Hk; [|discriminate].
    rewrite (imap_ext _ (λ i name, (S k + i, name)))
      by (intros; cbn; f_equal; lia).
    destruct (for_each _ _) as [l'|] eqn:Hl'; [|discriminate].
    intros [= <-]. apply IH in Hl' as [-> Hlen].
    rewrite (drop_S _ _ _ Hk). cbn. split; [done | lia].
Qed.

(** A prediction that is returned is the estimator's answer for the
    vector of the 23 features of the request, stamped with the time of the
    call, and its explanation pairs every one of the 23 feature names, in
    order, with the estimator's importance at the same position; it is
    empty when the estimator has no importances.  An estimator with fewer
    than 23 importances never yields a prediction. *)
Theorem predict_explains_every_feature sk rt now db
    (data : gmap string pyval) (requested : option Z) p :
  predict_vulnerability_priority sk rt now db data requested = Ok p →
  timestamp p = now
  ∧ ∃ found model features,
      _get_latest_model db requested = Some found
      ∧ model_id p = found.1
      ∧ pickle_loads sk (ml_model.model_data found.2) = Ok model
      ∧ _get_vulnerability_features rt data = Ok features
      ∧ features.*1 = feature_names
      ∧ predict sk model (features.*2) = Ok (priority_score p)
      ∧ match feature_importances_ sk model with
        | Some importances =>
            (23 ≤ length importances)%nat
            ∧ explanation p = zip feature_names (take 23 importances)
        | None => explanation p = []
        end.
Proof.
  unfold predict_vulnerability_priority.
  destruct (_get_latest_model db requested) as [found|]; [|discriminate].
  destruct (predict_body sk rt now found data) as [p'|e] eqn:E; [|discriminate].
  intros [= <-].
  unfold predict_body, mbind, result_bind, mret, result_ret in E.
  destruct (_get_vulnerability_features rt data) as [features|] eqn:Hf;
    [|discriminate E].
  cbn [Py.bind] in E.
  destruct (pickle_loads sk _) as [model|] eqn:Hload; [|discriminate E].
  cbn [Py.bind] in E.
  destruct (predict sk model _) as [score|] eqn:Hscore; [|discriminate E].
  cbn [Py.bind] in E.
  assert (Hnames : features.*1 = feature_names).
  { apply _get_vulnerability_features_Ok in Hf
      as (? & ? & ? & ? & ? & ? & ? & _ & _ & _ & _ & _ & _ & _ & ->).
    reflexivity. }
  rewrite Hnames in E.
  destruct (feature_importances_ sk model) as [importances|] eqn:Himp.
  - destruct (for_each _ _) as [l|] eqn:Hl; [|discriminate E].
    cbn [Py.bind] in E. injection E as <-. cbn.
    apply (explanation_loop importances feature_names 0) in Hl as [-> Hlen].
    rewrite drop_0 in *. split; [done|].
    exists found, model, features. rewrite Himp. by repeat split.
  - cbn [Py.bind] in E. injection E as <-. cbn. split; [done|].
    exists found, model, features. rewrite Himp. by repeat split.
Qed.

Lemma predict_explains_every_feature_witness :
  ∃ p, predict_vulnerability_priority examples.working_sklearn examples.strict_runtime
         31 examples.model_session examples.test_vulnerability_data (Some 2%Z) = Ok p
       ∧ model_id p = 2%Z
       ∧ timestamp p = 31%Z.
Proof.
  destruct (predict_vulnerability_priority examples.working_sklearn
              examples.strict_runtime 31 examples.model_session
              examples.test_vulnerability_data (Some 2%Z)) as [p|e] eqn:E;
    [|vm_compute in E; discriminate E].
  destruct (predict_explains_every_feature examples.working_sklearn
              examples.strict_runtime 31 examples.model_session
              examples.test_vulnerability_data (Some 2%Z) p E)
    as (Hstamp & found & model & features & Hfound & Hid & _).
  exists p. split; [reflexivity|]. split; [|exact Hstamp].
  vm_compute in Hfound. injection Hfound as <-. exact Hid.
Defined.

End models.
